(** * Training log: progression advice, workout reducer, L-DPS client,
      session clustering

    The TypeScript sources embedded here are
    - [sre/src/api/types.ts] (data types and the L-DPS client),
    - [sre/src/utils/progressiveOverload.ts],
    - [sre/src/context/workoutReducer.ts].
    A TypeScript [number] is an IEEE-754 binary64 value; it is embedded as
    the kernel's primitive [float], so [+], [*], [<], [>] and [===] below are
    the operations the JavaScript engine performs, rounding included.

    The Python service behind the latest-session route (L-DPS) has no source
    in the repository; its ledger and session clustering are modelled from
    the specification in module [LDPS]. *)

From Stdlib Require Import List String ZArith QArith Bool Lia Uint63 Floats
  Permutation.
Import ListNotations.

(* ================================================================== *)
(** ** JavaScript values, numbers and completions *)

Module Js.

(** A thrown value: an instance of [Error] (or of a subclass, recorded by
    its [name]), or any other value. *)
Inductive Thrown : Type :=
| ErrorInstance (name message : string)
| NonError (description : string).

Definition instanceof_Error (t : Thrown) : bool :=
  match t with
  | ErrorInstance _ _ => true
  | NonError _ => false
  end.

Definition new_Error (message : string) : Thrown :=
  ErrorInstance "Error" message.

Definition new_TypeError (message : string) : Thrown :=
  ErrorInstance "TypeError" message.

(** The outcome of evaluating an expression or of running a function body
    to its end: a value, or an abrupt completion by [throw]. For an
    [async] function it is the state its promise settles in. *)
Inductive Completion (A : Type) : Type :=
| Normal (value : A)
| Throw (reason : Thrown).

Arguments Normal {A} value.
Arguments Throw {A} reason.

Definition bind {A B : Type} (c : Completion A) (k : A -> Completion B)
  : Completion B :=
  match c with
  | Normal a => k a
  | Throw t => Throw t
  end.

(** [try { body } catch (error) { handler }] *)
Definition try_catch {A : Type} (body : Completion A)
    (handler : Thrown -> Completion A) : Completion A :=
  match body with
  | Normal a => Normal a
  | Throw t => handler t
  end.

Definition returns {A : Type} (c : Completion A) : bool :=
  match c with
  | Normal _ => true
  | Throw _ => false
  end.

(** *** Numbers *)

Definition number : Set := float.

(** [a > b], [a >= b] and [a === b] on numbers. *)
Definition gt (a b : number) : bool := PrimFloat.ltb b a.
Definition ge (a b : number) : bool := PrimFloat.leb b a.
Definition lt (a b : number) : bool := PrimFloat.ltb a b.
Definition le (a b : number) : bool := PrimFloat.leb a b.
Definition strict_eq (a b : number) : bool := PrimFloat.eqb a b.

Definition is_pos_zero (n : number) : bool :=
  match classify n with
  | PZero => true
  | _ => false
  end.

Definition is_neg_zero (n : number) : bool :=
  match classify n with
  | NZero => true
  | _ => false
  end.

(** [Math.max(...values)] (ECMA-262, 21.3.2.24): a NaN argument gives NaN,
    [+0] counts as larger than [-0], no argument gives [-Infinity]. *)
Fixpoint Math_max_from (highest : number) (values : list number) : number :=
  match values with
  | [] => highest
  | n :: rest =>
      if is_nan n then nan
      else
        let highest1 :=
          if is_pos_zero n && is_neg_zero highest then n else highest in
        let highest2 := if gt n highest1 then n else highest1 in
        Math_max_from highest2 rest
  end.

Definition Math_max (values : list number) : number :=
  Math_max_from neg_infinity values.

(** *** Arrays *)

(** [array.reduce(callbackfn)] without an initial value: the first element
    seeds the accumulator, and an empty array throws a TypeError
    (ECMA-262, 23.1.3.24, step 8.c). *)
Definition reduce {A : Type} (array : list A) (callbackfn : A -> A -> A)
  : Completion A :=
  match array with
  | [] => Throw (new_TypeError "Reduce of empty array with no initial value")
  | first :: rest => Normal (fold_left callbackfn rest first)
  end.

(** [array.reduce(callbackfn, initialValue)] *)
Definition reduce_from {A B : Type} (array : list A)
    (callbackfn : B -> A -> B) (initialValue : B) : B :=
  fold_left callbackfn array initialValue.

End Js.

Declare Scope js_scope.
Delimit Scope js_scope with js.
Notation "x <- c ;; k" := (Js.bind c (fun x => k))
  (at level 61, c at next level, right associativity) : js_scope.
Notation "a >? b" := (Js.gt a b) (at level 70, no associativity) : js_scope.
Notation "a >=? b" := (Js.ge a b) (at level 70, no associativity) : js_scope.
Notation "a === b" := (Js.strict_eq a b) (at level 70, no associativity) : js_scope.

(** The three-way comparison of the floating-point specification read as an
    order: [below true] is [<] and [below false] is [<=]; a NaN is below
    nothing and nothing is below it. *)
Definition below (strict : bool) (a b : spec_float) : bool :=
  match SFcompare a b with
  | Some Lt => true
  | Some Eq => negb strict
  | _ => false
  end.

(* ================================================================== *)
(** ** sre/src/api/types.ts: data types *)

Module Types.
Import Js.

Record Exercise : Type := {
  name : string;
  exercise_sets : option number;   (* sets: number | null *)
  exercise_reps : option number    (* reps: number | null *)
}.

Record DailyWorkout : Type := {
  workout_id : number;
  plan_id : string;
  day : string;
  target_body_parts : list string;
  exercises : list Exercise
}.

(** [LogEntryResponse extends LogEntryCreate]; the inherited fields come
    first. Its fields carry the prefix [log_] where [SetData] has a field
    of the same name. *)
Record LogEntryResponse : Type := {
  log_user_id : string;
  log_exercise_name : string;
  log_set_number : number;
  log_weight_used : number;
  log_reps_completed : number;
  log_duration : option number;
  log_distance : option number;
  log_rpe : option number;
  log_entry_id : string;
  log_timestamp : string;
  created_at : string
}.

Record SetData : Type := {
  set_number : number;
  weight_used : number;
  reps_completed : number;
  duration : option number;
  distance : option number;
  rpe : option number;
  timestamp : string
}.

Record SessionReference : Type := {
  user_id : string;
  exercise_name : string;
  session_timestamp : string;
  sets : list SetData;
  total_sets : number
}.

Record APIError : Type := {
  detail : string;
  status : option number
}.

End Types.

(* ================================================================== *)
(** ** sre/src/utils/progressiveOverload.ts *)

Module ProgressiveOverload.
Import Js Types.
Local Open Scope float_scope.
Local Open Scope js_scope.
Local Open Scope string_scope.

Inductive Strategy : Set := weight | reps | both.

Definition Strategy_eqb (a b : Strategy) : bool :=
  match a, b with
  | weight, weight | reps, reps | both, both => true
  | _, _ => false
  end.

Record Progression : Type := {
  suggestedWeight : number;
  suggestedReps : number;
  lastWeight : number;
  lastReps : number;
  strategy : Strategy;
  message : string
}.

(** The callback the four heaviest-set reductions share, each written out
    in the source: [(max, set) => set.weight_used > max.weight_used ? set : max]. *)
Definition heavier (max set : SetData) : SetData :=
  if weight_used set >? weight_used max then set else max.

Section WithNumberToString.

(** [Number::toString], the decimal rendering a template literal applies
    to a number. *)
Variable Number_toString : number -> string.

Definition calculateProgression (reference : SessionReference)
  : Completion Progression :=
  heaviestSet <- reduce (sets reference)
                   (fun max set =>
                      if weight_used set >? weight_used max then set else max) ;;
  let lastWeight := weight_used heaviestSet in
  let lastReps := reps_completed heaviestSet in
  (* let suggestedWeight = lastWeight; let suggestedReps = lastReps;
     let strategy = 'reps'; then one of the two branches assigns *)
  let suggestedWeight0 := lastWeight in
  let suggestedReps0 := lastReps in
  let strategy0 := reps in
  let '(suggestedWeight, suggestedReps, strategy) :=
    if (lastReps <? 12)%float
    then (suggestedWeight0, lastReps + 1, reps)
    else (lastWeight + 2.5, Math_max [8; lastReps - 2], weight) in
  let message :=
    if Strategy_eqb strategy reps
    then "Add 1 rep (" ++ Number_toString lastReps ++ " → "
           ++ Number_toString suggestedReps ++ ")"
    else "Add 2.5kg (" ++ Number_toString lastWeight ++ "kg → "
           ++ Number_toString suggestedWeight ++ "kg)" in
  Normal {| suggestedWeight := suggestedWeight;
            suggestedReps := suggestedReps;
            lastWeight := lastWeight;
            lastReps := lastReps;
            strategy := strategy;
            message := message |}.

End WithNumberToString.

Definition isBeatPreviousSession (currentWeight currentReps : number)
    (reference : SessionReference) : Completion bool :=
  heaviestSet <- reduce (sets reference)
                   (fun max set =>
                      if weight_used set >? weight_used max then set else max) ;;
  Normal ((currentWeight >? weight_used heaviestSet)
          || ((currentWeight === weight_used heaviestSet)
              && (currentReps >? reps_completed heaviestSet))).

Definition calculateVolume (reference : SessionReference) : number :=
  reduce_from (sets reference)
    (fun sum set => sum + weight_used set * reps_completed set) 0.

Definition findBestSet (reference : SessionReference) : Completion SetData :=
  reduce (sets reference)
    (fun max set => if weight_used set >? weight_used max then set else max).

Definition calculateImprovement (currentWeight currentReps : number)
    (reference : SessionReference) : Completion number :=
  heaviestSet <- findBestSet reference ;;
  let previousBest := weight_used heaviestSet * reps_completed heaviestSet in
  let currentBest := currentWeight * currentReps in
  Normal (((currentBest - previousBest) / previousBest) * 100).

(** The sets of a session are listed in ascending order of [set_number],
    the order the service returns them in. *)
Fixpoint set_number_ascending (sets : list SetData) : bool :=
  match sets with
  | [] => true
  | set :: rest =>
      match rest with
      | [] => true
      | next :: _ => Js.le (set_number set) (set_number next)
      end && set_number_ascending rest
  end.

(** No set of the list carries NaN as its weight. *)
Definition weights_are_numbers (sets : list SetData) : bool :=
  forallb (fun set => negb (is_nan (weight_used set))) sets.

(** The sum [t1 + t2 + ... + tn] of a list of numbers, additions performed
    from the left starting at 0: the sum of the terms before the last one,
    plus the last one. [sum_rev] takes the terms last first. *)
Fixpoint sum_rev (reversed : list number) : number :=
  match reversed with
  | [] => 0
  | last :: earlier => sum_rev earlier + last
  end.

Definition sum_of (terms : list number) : number := sum_rev (rev terms).

(** The increment that [calculateProgression] applies to the heaviest set
    changes the number it is applied to: [r + 1 > r] in the branch that adds
    a rep, where the weight must also equal itself (it is not NaN), and
    [w + 2.5 > w] in the branch that adds weight. Doubles at and above 2^55
    are spaced 8 or more apart, and adding 2.5 to one of them returns it
    unchanged. *)
Definition increment_registers (best : SetData) : bool :=
  if (reps_completed best <? 12)%float
  then (weight_used best === weight_used best)
       && (reps_completed best + 1 >? reps_completed best)
  else weight_used best + 2.5 >? weight_used best.

(** The number [n], and the number [k / 2] for a count [k] of half
    kilograms. *)
Definition whole (n : nat) : number := of_uint63 (Uint63.of_Z (Z.of_nat n)).
Definition half_kilos (k : nat) : number := whole k / 2.

(** *** Sample data

    Sets and sessions for the examples of the specification and of the L-DPS
    README; only [set_number], [weight_used] and [reps_completed] vary. *)

Definition sample_set (set_number weight_used reps_completed : number)
  : SetData :=
  {| set_number := set_number;
     weight_used := weight_used;
     reps_completed := reps_completed;
     duration := None;
     distance := None;
     rpe := None;
     timestamp := "2025-10-15T10:05:00Z" |}.

Definition sample_session (sets : list SetData) : SessionReference :=
  {| user_id := "user_123";
     exercise_name := "Leg Press";
     session_timestamp := "2025-10-15T10:05:00Z";
     sets := sets;
     total_sets := whole (List.length sets) |}.

(** The three sets of the volume example: (100,10), (105,8), (100,10). *)
Definition leg_press_session : SessionReference :=
  sample_session
    [sample_set 1 100 10; sample_set 2 105 8; sample_set 3 100 10].

(** A rendering of numbers for examples that do not read the message. *)
Definition unrendered (n : number) : string := "#".

End ProgressiveOverload.

(* ================================================================== *)
(** ** sre/src/context/workoutReducer.ts *)

Module WorkoutReducer.
Import Js Types.

Record WorkoutState : Type := {
  userId : string;
  currentDay : string;
  dailyWorkout : option DailyWorkout;
  currentExerciseIndex : number;
  currentExercise : option string;
  referenceData : option SessionReference;
  loggedSets : list LogEntryResponse;
  isLoading : bool;
  error : option string
}.

Inductive WorkoutAction : Type :=
| SET_USER_ID (payload : string)
| SET_CURRENT_DAY (payload : string)
| LOAD_WORKOUT_START
| LOAD_WORKOUT_SUCCESS (payload : DailyWorkout)
| LOAD_WORKOUT_ERROR (payload : string)
| SELECT_EXERCISE (exerciseName : string) (index : number)
| LOAD_REFERENCE_SUCCESS (payload : option SessionReference)
| LOG_SET_SUCCESS (payload : LogEntryResponse)
| CLEAR_LOGGED_SETS
| RESET_SESSION.

(** Each case is an object spread [{ ...state, field: value, ... }]: a copy
    of [state] with the listed fields replaced. The [default] case of the
    source throws for an action outside the union; its argument has type
    [never], and no value of [WorkoutAction] reaches it. *)
Definition workoutReducer (state : WorkoutState) (action : WorkoutAction)
  : WorkoutState :=
  match action with
  | SET_USER_ID payload =>
      {| userId := payload;
         currentDay := currentDay state;
         dailyWorkout := dailyWorkout state;
         currentExerciseIndex := currentExerciseIndex state;
         currentExercise := currentExercise state;
         referenceData := referenceData state;
         loggedSets := loggedSets state;
         isLoading := isLoading state;
         error := error state |}
  | SET_CURRENT_DAY payload =>
      {| userId := userId state;
         currentDay := payload;
         dailyWorkout := dailyWorkout state;
         currentExerciseIndex := currentExerciseIndex state;
         currentExercise := currentExercise state;
         referenceData := referenceData state;
         loggedSets := loggedSets state;
         isLoading := isLoading state;
         error := error state |}
  | LOAD_WORKOUT_START =>
      {| userId := userId state;
         currentDay := currentDay state;
         dailyWorkout := dailyWorkout state;
         currentExerciseIndex := currentExerciseIndex state;
         currentExercise := currentExercise state;
         referenceData := referenceData state;
         loggedSets := loggedSets state;
         isLoading := true;
         error := None |}
  | LOAD_WORKOUT_SUCCESS payload =>
      {| userId := userId state;
         currentDay := currentDay state;
         dailyWorkout := Some payload;
         currentExerciseIndex := currentExerciseIndex state;
         currentExercise := currentExercise state;
         referenceData := referenceData state;
         loggedSets := loggedSets state;
         isLoading := false;
         error := None |}
  | LOAD_WORKOUT_ERROR payload =>
      {| userId := userId state;
         currentDay := currentDay state;
         dailyWorkout := None;
         currentExerciseIndex := currentExerciseIndex state;
         currentExercise := currentExercise state;
         referenceData := referenceData state;
         loggedSets := loggedSets state;
         isLoading := false;
         error := Some payload |}
  | SELECT_EXERCISE exerciseName index =>
      {| userId := userId state;
         currentDay := currentDay state;
         dailyWorkout := dailyWorkout state;
         currentExerciseIndex := index;
         currentExercise := Some exerciseName;
         referenceData := None;
         loggedSets := [];
         isLoading := isLoading state;
         error := error state |}
  | LOAD_REFERENCE_SUCCESS payload =>
      {| userId := userId state;
         currentDay := currentDay state;
         dailyWorkout := dailyWorkout state;
         currentExerciseIndex := currentExerciseIndex state;
         currentExercise := currentExercise state;
         referenceData := payload;
         loggedSets := loggedSets state;
         isLoading := isLoading state;
         error := error state |}
  | LOG_SET_SUCCESS payload =>
      {| userId := userId state;
         currentDay := currentDay state;
         dailyWorkout := dailyWorkout state;
         currentExerciseIndex := currentExerciseIndex state;
         currentExercise := currentExercise state;
         referenceData := referenceData state;
         loggedSets := loggedSets state ++ [payload];
         isLoading := isLoading state;
         error := error state |}
  | CLEAR_LOGGED_SETS =>
      {| userId := userId state;
         currentDay := currentDay state;
         dailyWorkout := dailyWorkout state;
         currentExerciseIndex := currentExerciseIndex state;
         currentExercise := currentExercise state;
         referenceData := referenceData state;
         loggedSets := [];
         isLoading := isLoading state;
         error := error state |}
  | RESET_SESSION =>
      {| userId := userId state;
         currentDay := currentDay state;
         dailyWorkout := dailyWorkout state;
         currentExerciseIndex := (-1)%float;
         currentExercise := None;
         referenceData := None;
         loggedSets := [];
         isLoading := isLoading state;
         error := None |}
  end.

End WorkoutReducer.

(* ================================================================== *)
(** ** sre/src/api/types.ts: the L-DPS client *)

Module LDPSClient.
Import Js Types.
Local Open Scope js_scope.
Local Open Scope string_scope.

#[local] Set Warnings "-register-all".

(** What [response.json()] resolves to; TypeScript types it [any]. *)
Inductive Json : Type :=
| JNull
| JBool (b : bool)
| JNumber (n : number)
| JString (s : string)
| JArray (items : list Json)
| JObject (members : list (string * Json)).

(** The member [JSON.parse] keeps for a key: the last one in the text. *)
Fixpoint get_member (key : string) (members : list (string * Json))
  : option Json :=
  match members with
  | [] => None
  | (k, v) :: rest =>
      match get_member key rest with
      | Some later => Some later
      | None => if String.eqb k key then Some v else None
      end
  end.

(** [value.key] for a string key other than that of a built-in property:
    reading a property of [null] throws a TypeError, a primitive or an
    array has no such property ([None] is [undefined]). *)
Definition get_property (value : Json) (key : string)
  : Completion (option Json) :=
  match value with
  | JNull =>
      Throw (new_TypeError
               ("Cannot read properties of null (reading '" ++ key ++ "')"))
  | JObject members => Normal (get_member key members)
  | _ => Normal None
  end.

(** A [Response] as far as the client reads it; [response_status] is its
    [status]. *)
Record Response : Type := {
  response_status : number;
  statusText : string;
  json : Completion Json       (* how the promise of [json()] settles *)
}.

(** The elements of an array converted one after the other, as the loop of
    [Array.prototype.join] does: the first conversion that throws ends the
    loop. *)
Definition in_order {A B : Type} (convert : A -> Completion B)
  : list A -> Completion (list B) :=
  fix loop (items : list A) : Completion (list B) :=
    match items with
    | [] => Normal []
    | item :: rest =>
        part <- convert item ;;
        parts <- loop rest ;;
        Normal (part :: parts)
    end.

(** [response.ok]: the status is in the range 200 to 299 (Fetch, 2.2.6). *)
Definition ok (response : Response) : bool :=
  (response_status response >=? 200%float)
  && Js.le (response_status response) 299%float.

Section WithEnvironment.

Variable Number_toString : number -> string.

(** [encodeURIComponent]; it throws a URIError on a lone surrogate. *)
Variable encodeURIComponent : string -> Completion string.

(** [fetch(url, { method: 'GET' })]: how the returned promise settles.
    It rejects when no response arrives (network failure). *)
Variable fetch : string -> Completion Response.

(** [ToString] of a parsed JSON value (ECMA-262, 7.1.17). An array is
    converted by [Array.prototype.join]: its elements in order, [null]
    elements giving the empty string, joined with commas. An object is
    converted by [OrdinaryToPrimitive], which looks up [toString]: an own
    member of that name is data, never callable, and shadows
    [Object.prototype.toString], and [Object.prototype.valueOf] returns the
    object, so that the conversion throws a TypeError; without such a member
    the result is "[object Object]". *)
Fixpoint ToString (value : Json) : Completion string :=
  match value with
  | JNull => Normal "null"
  | JBool true => Normal "true"
  | JBool false => Normal "false"
  | JNumber n => Normal (Number_toString n)
  | JString s => Normal s
  | JArray items =>
      parts <- in_order (fun item => match item with
                                     | JNull => Normal ""
                                     | _ => ToString item
                                     end) items ;;
      Normal (String.concat "," parts)
  | JObject members =>
      match get_member "toString" members with
      | Some _ =>
          Throw (new_TypeError "Cannot convert object to primitive value")
      | None => Normal "[object Object]"
      end
  end.

(** [new Error(message)]: an [undefined] message leaves the empty
    string of [Error.prototype.message]; any other message is converted
    with [ToString], whose TypeError the [new] expression throws. *)
Definition new_Error_of (message : option Json) : Completion Thrown :=
  match message with
  | None => Normal (new_Error "")
  | Some value =>
      text <- ToString value ;;
      Normal (new_Error text)
  end.

Definition url_of (baseUrl userId encodedName : string)
    (sessionThresholdHours : number) : string :=
  baseUrl ++ "/api/v1/logs/" ++ userId ++ "/" ++ encodedName
    ++ "/latest-session?session_threshold_hours="
    ++ Number_toString sessionThresholdHours.

(** The [try] block of [getLatestSession]. Its value is what the block
    [return]s: [null] ([Normal JNull]) or the promise of
    [response.json()], which is returned without [await], so that its
    rejection does not pass through the [catch] block. *)
Definition getLatestSession_try (baseUrl userId exerciseName : string)
    (sessionThresholdHours : number) : Completion (Completion Json) :=
  encodedName <- encodeURIComponent exerciseName ;;
  let url := url_of baseUrl userId encodedName sessionThresholdHours in
  response <- fetch url ;;
  if response_status response === 404%float then
    Normal (Normal JNull)   (* First time doing this exercise *)
  else if negb (ok response) then
    error <- Normal
               (match json response with
                | Normal body => body
                | Throw _ =>
                    JObject
                      [("detail",
                         JString ("L-DPS error: " ++ statusText response));
                       ("status", JNumber (response_status response))]
                end) ;;
    error_detail <- get_property error "detail" ;;
    thrown <- new_Error_of error_detail ;;
    Throw thrown
  else
    Normal (json response).

(** [async getLatestSession(userId, exerciseName, sessionThresholdHours = 2.0)];
    [baseUrl] is [this.baseUrl], and [None] is an omitted threshold. *)
Definition getLatestSession (baseUrl userId exerciseName : string)
    (sessionThresholdHours : option number) : Completion Json :=
  let sessionThresholdHours :=
    match sessionThresholdHours with
    | Some hours => hours
    | None => 2.0%float
    end in
  returned <-
    try_catch
      (getLatestSession_try baseUrl userId exerciseName sessionThresholdHours)
      (fun error =>
         if instanceof_Error error then Throw error
         else Throw (new_Error "Failed to fetch latest session")) ;;
  returned.

(** The URL a call requests, with the default threshold filled in. *)
Definition request_url (baseUrl userId encodedName : string)
    (sessionThresholdHours : option number) : string :=
  url_of baseUrl userId encodedName
    (match sessionThresholdHours with
     | Some hours => hours
     | None => 2.0%float
     end).

End WithEnvironment.

(** *** Sample environment

    A service that answers every request with status 200 and a body that is
    not JSON, so that [response.json()] rejects with a SyntaxError. *)

Definition unreadable_ok_response : Response :=
  {| response_status := 200%float;
     statusText := "OK";
     json := Throw (ErrorInstance "SyntaxError"
                      "Unexpected token '<' is not valid JSON") |}.

(** A service that answers every request with status 404 and the body of
    the L-DPS README. *)
Definition not_found_response : Response :=
  {| response_status := 404%float;
     statusText := "Not Found";
     json := Normal
               (JObject
                  [("detail",
                     JString "No previous session found for Squat")]) |}.

(** A rendering of numbers and an encoding of names for the examples, whose
    names need no escaping. *)
Definition two_as_text (n : number) : string := "2".
Definition unescaped (name : string) : Completion string := Normal name.

End LDPSClient.

(* ================================================================== *)
(** ** The L-DPS service: ledger, session clustering, reference service

    The service is Python code ([ldps/services/session_clustering.py] and its
    routes) that the repository's sources do not include. Everything in this
    module follows sections 3 and 4 of the specification. Instants and
    durations are whole seconds. *)

Module LDPS.
Local Open Scope Z_scope.

(** Modelled from the spec: the instants and durations of the missing
    service (sections 3 and 4.2), counted in seconds. *)
Definition Instant : Set := Z.
Definition Duration : Set := Z.

(** Modelled from the spec: the LogEntry record of the missing service
    (section 3): one completed set. *)
Record LogEntry : Type := {
  id : string;
  user_id : string;
  exercise_name : string;
  timestamp : Instant;
  set_number : Z;
  weight_used : Q;
  reps_completed : Z;
  duration : option Q;
  distance : option Q;
  rpe : option Q
}.

(** Modelled from the spec: the default session threshold of the missing
    clusterer, 2 hours (section 4.2). *)
Definition default_threshold : Duration := 2 * 3600.

(** Modelled from the spec: the key test of the missing LedgerStore.query
    (section 4.1): the entry belongs to the pair (user_id, exercise_name). *)
Definition has_key (user exercise : string) (entry : LogEntry) : bool :=
  String.eqb (user_id entry) user && String.eqb (exercise_name entry) exercise.

(** Modelled from the spec: the ordering step of the missing
    LedgerStore.query (section 4.1), most recent first; one entry is put in
    its place among entries already in order. *)
Fixpoint insert_by_timestamp_desc (entry : LogEntry) (ordered : list LogEntry)
  : list LogEntry :=
  match ordered with
  | [] => [entry]
  | head :: tail =>
      if timestamp head <=? timestamp entry
      then entry :: head :: tail
      else head :: insert_by_timestamp_desc entry tail
  end.

(** Modelled from the spec: the missing LedgerStore.query (section 4.1): all
    entries of the pair, ordered by timestamp descending; an empty result is
    not an error. *)
Definition query (user exercise : string) (ledger : list LogEntry)
  : list LogEntry :=
  fold_right insert_by_timestamp_desc [] (filter (has_key user exercise) ledger).

(** Modelled from the spec: the gap the missing clusterer computes between an
    entry and the next-older one (section 4.2, step 2). *)
Definition gap (newer older : LogEntry) : Duration :=
  timestamp newer - timestamp older.

(** Modelled from the spec: steps 2 to 4 of the missing SessionClusterer
    (section 4.2): walk from [current] towards the older entries,
    accumulating while the gap to the next entry is at most [threshold], and
    stop at the first larger gap or at the end of the list. *)
Fixpoint accumulate (threshold : Duration) (current : LogEntry)
    (older : list LogEntry) : list LogEntry :=
  match older with
  | [] => [current]
  | next :: rest =>
      if gap current next <=? threshold
      then current :: accumulate threshold next rest
      else [current]
  end.

(** Modelled from the spec: step 5 of the missing SessionClusterer, the sort
    of the session ascending by set_number, one insertion at a time. *)
Fixpoint insert_by_set_number (entry : LogEntry) (ordered : list LogEntry)
  : list LogEntry :=
  match ordered with
  | [] => [entry]
  | head :: tail =>
      if set_number entry <? set_number head
      then entry :: head :: tail
      else head :: insert_by_set_number entry tail
  end.

(** Modelled from the spec: step 5 of the missing SessionClusterer
    (section 4.2). *)
Definition sort_by_set_number (session : list LogEntry) : list LogEntry :=
  fold_left (fun ordered entry => insert_by_set_number entry ordered) session [].

(** Modelled from the spec: step 6 of the missing SessionClusterer: the
    earliest timestamp among the entries of a session that starts with
    [first]. *)
Definition earliest (first : LogEntry) (others : list LogEntry) : Instant :=
  fold_left (fun least entry => Z.min least (timestamp entry)) others
            (timestamp first).

(** Modelled from the spec: the result the missing ReferenceService packages
    (section 4.4). *)
Record SessionReference : Type := {
  session_timestamp : Instant;
  sets : list LogEntry;
  total_sets : nat
}.

(** Modelled from the spec: the two outcomes of the missing latest-session
    query; NotFound is a normal result (sections 4.2 and 7). *)
Inductive LatestSession : Type :=
| NotFound
| Found (reference : SessionReference).

(** Modelled from the spec: the missing SessionClusterer (section 4.2) with
    the packaging of section 4.4, on entries given most recent first. *)
Definition cluster_latest (threshold : Duration) (entries : list LogEntry)
  : LatestSession :=
  match entries with
  | [] => NotFound
  | newest :: older =>
      let session := accumulate threshold newest older in
      Found {| session_timestamp := earliest newest session;
               sets := sort_by_set_number session;
               total_sets := List.length session |}
  end.

(** Modelled from the spec: getLatestSessionReference of the missing
    ReferenceService (section 4.4): query, then cluster. *)
Definition getLatestSessionReference (user exercise : string)
    (threshold : Duration) (ledger : list LogEntry) : LatestSession :=
  cluster_latest threshold (query user exercise ledger).

(** Consecutive entries of a list are at most [threshold] apart. *)
Fixpoint within_threshold (threshold : Duration) (entries : list LogEntry)
  : Prop :=
  match entries with
  | [] => True
  | newer :: rest =>
      match rest with
      | [] => True
      | older :: _ => gap newer older <= threshold
      end /\ within_threshold threshold rest
  end.

(** A list of entries runs from the most recent to the oldest. *)
Fixpoint descending (entries : list LogEntry) : Prop :=
  match entries with
  | [] => True
  | newer :: rest =>
      match rest with
      | [] => True
      | older :: _ => timestamp older <= timestamp newer
      end /\ descending rest
  end.

(** The second of hour [h], minute [m] of the day the examples are set in. *)
Definition clock (h m : Z) : Instant := h * 3600 + m * 60.

(** A ledger entry for the examples; only the identifier, the timestamp and
    the set number vary. *)
Definition sample_entry (id : string) (timestamp : Instant) (set_number : Z)
  : LogEntry :=
  {| id := id;
     user_id := "user_123";
     exercise_name := "Leg Press";
     timestamp := timestamp;
     set_number := set_number;
     weight_used := 100;
     reps_completed := 10;
     duration := None;
     distance := None;
     rpe := None |}.

(** Two sets at 07:00 and 07:05 and two at 10:00 and 10:05, in the order
    they were logged, with a set of another exercise in between. *)
Definition sample_ledger : list LogEntry :=
  [ sample_entry "a" (clock 7 0) 1;
    sample_entry "b" (clock 7 5) 2;
    {| id := "x"; user_id := "user_123"; exercise_name := "Squat";
       timestamp := clock 8 30; set_number := 1; weight_used := 80;
       reps_completed := 5; duration := None; distance := None;
       rpe := None |};
    sample_entry "c" (clock 10 0) 1;
    sample_entry "d" (clock 10 5) 2 ].

End LDPS.

(* ================================================================== *)
(** ** sre/src/context/workoutReducer.ts: the initial state *)

Module InitialState.
Import Js Types WorkoutReducer.
Local Open Scope string_scope.

(** What [new Date().getDay()] returns: the day of the week of the current
    date, an integer from 0 (Sunday) to 6 (Saturday). *)
Inductive DayOfWeek : Set :=
| day_0 | day_1 | day_2 | day_3 | day_4 | day_5 | day_6.

Definition index_of (getDay : DayOfWeek) : nat :=
  match getDay with
  | day_0 => 0 | day_1 => 1 | day_2 => 2 | day_3 => 3
  | day_4 => 4 | day_5 => 5 | day_6 => 6
  end.

Definition days : list string :=
  ["Sunday"; "Monday"; "Tuesday"; "Wednesday"; "Thursday"; "Friday";
   "Saturday"].

(** [days[new Date().getDay()]]; the index lies within the array, so the
    default of [nth] is never returned. *)
Definition getCurrentDay (getDay : DayOfWeek) : string :=
  nth (index_of getDay) days "".

(** [createInitialState(userId = 'user_123')]; [None] is an omitted
    argument. *)
Definition createInitialState (getDay : DayOfWeek) (userId : option string)
  : WorkoutState :=
  let userId := match userId with Some id => id | None => "user_123" end in
  {| userId := userId;
     currentDay := getCurrentDay getDay;
     dailyWorkout := None;
     currentExerciseIndex := (-1)%float;
     currentExercise := None;
     referenceData := None;
     loggedSets := [];
     isLoading := false;
     error := None |}.

(** The state after the actions of a list have been dispatched in order. *)
Definition dispatch_all (state : WorkoutState) (actions : list WorkoutAction)
  : WorkoutState :=
  fold_left workoutReducer actions state.

(** The action empties [loggedSets]. *)
Definition clears_logged_sets (action : WorkoutAction) : bool :=
  match action with
  | SELECT_EXERCISE _ _ | CLEAR_LOGGED_SETS | RESET_SESSION => true
  | _ => false
  end.

(** The payloads of the [LOG_SET_SUCCESS] actions that follow the last
    action emptying [loggedSets], oldest first, and whether the list holds
    an emptying action at all. *)
Fixpoint logged_since_clear (actions : list WorkoutAction)
  : bool * list LogEntryResponse :=
  match actions with
  | [] => (false, [])
  | action :: rest =>
      let '(cleared, logged) := logged_since_clear rest in
      if cleared then (true, logged)
      else if clears_logged_sets action then (true, logged)
      else match action with
           | LOG_SET_SUCCESS payload => (false, payload :: logged)
           | _ => (false, logged)
           end
  end.

(** What every state reached from an initial state satisfies: a loaded
    workout and an error are never held together, no error is held while
    loading, and without a current exercise the index is -1. *)
Definition consistent (state : WorkoutState) : Prop :=
  (dailyWorkout state = None \/ error state = None)
  /\ (isLoading state = true -> error state = None)
  /\ (currentExercise state = None ->
      currentExerciseIndex state = (-1)%float).

Definition is_SET_USER_ID (action : WorkoutAction) : bool :=
  match action with
  | SET_USER_ID _ => true
  | _ => false
  end.

End InitialState.

(* ================================================================== *)
(** ** The workout reducer with completed exercises

    The later revision of [workoutReducer.ts] (the file that
    [ExerciseDetailPage] and [WorkoutListPage] are written against): the
    state also tracks the names of the completed exercises. A [Set<string>]
    is embedded as the list of its elements in insertion order, which holds
    no element twice. *)

Module WorkoutReducer2.
Import Js Types.
Local Open Scope string_scope.

(** [set.add(value)]: the value goes to the end unless the set holds it. *)
Definition add_once (set : list string) (value : string) : list string :=
  if existsb (String.eqb value) set then set else (set ++ [value])%list.

(** [new Set(values)]: the elements of [values] are added in order, so each
    is kept at its first occurrence. *)
Definition Set_of (values : list string) : list string :=
  fold_left add_once values [].

(** [set.has(value)] *)
Definition Set_has (set : list string) (value : string) : bool :=
  existsb (String.eqb value) set.

Record WorkoutState : Type := {
  userId : string;
  currentDay : string;
  dailyWorkout : option DailyWorkout;
  currentExerciseIndex : number;
  currentExercise : option string;
  referenceData : option SessionReference;
  loggedSets : list LogEntryResponse;
  completedExercises : list string;
  isLoading : bool;
  error : option string
}.

Inductive WorkoutAction : Type :=
| SET_USER_ID (payload : string)
| SET_CURRENT_DAY (payload : string)
| LOAD_WORKOUT_START
| LOAD_WORKOUT_SUCCESS (payload : DailyWorkout)
| LOAD_WORKOUT_ERROR (payload : string)
| SELECT_EXERCISE (exerciseName : string) (index : number)
| LOAD_REFERENCE_SUCCESS (payload : option SessionReference)
| LOG_SET_SUCCESS (payload : LogEntryResponse)
| COMPLETE_EXERCISE (payload : string)
| CLEAR_LOGGED_SETS
| RESET_SESSION.

(** Each case is an object spread [{ ...state, field: value, ... }]; no
    value of [WorkoutAction] reaches the [default] case. *)
Definition workoutReducer (state : WorkoutState) (action : WorkoutAction)
  : WorkoutState :=
  match action with
  | SET_USER_ID payload =>
      {| userId := payload;
         currentDay := currentDay state;
         dailyWorkout := dailyWorkout state;
         currentExerciseIndex := currentExerciseIndex state;
         currentExercise := currentExercise state;
         referenceData := referenceData state;
         loggedSets := loggedSets state;
         completedExercises := completedExercises state;
         isLoading := isLoading state;
         error := error state |}
  | SET_CURRENT_DAY payload =>
      {| userId := userId state;
         currentDay := payload;
         dailyWorkout := dailyWorkout state;
         currentExerciseIndex := currentExerciseIndex state;
         currentExercise := currentExercise state;
         referenceData := referenceData state;
         loggedSets := loggedSets state;
         completedExercises := completedExercises state;
         isLoading := isLoading state;
         error := error state |}
  | LOAD_WORKOUT_START =>
      {| userId := userId state;
         currentDay := currentDay state;
         dailyWorkout := dailyWorkout state;
         currentExerciseIndex := currentExerciseIndex state;
         currentExercise := currentExercise state;
         referenceData := referenceData state;
         loggedSets := loggedSets state;
         completedExercises := completedExercises state;
         isLoading := true;
         error := None |}
  | LOAD_WORKOUT_SUCCESS payload =>
      {| userId := userId state;
         currentDay := currentDay state;
         dailyWorkout := Some payload;
         currentExerciseIndex := currentExerciseIndex state;
         currentExercise := currentExercise state;
         referenceData := referenceData state;
         loggedSets := loggedSets state;
         completedExercises := completedExercises state;
         isLoading := false;
         error := None |}
  | LOAD_WORKOUT_ERROR payload =>
      {| userId := userId state;
         currentDay := currentDay state;
         dailyWorkout := None;
         currentExerciseIndex := currentExerciseIndex state;
         currentExercise := currentExercise state;
         referenceData := referenceData state;
         loggedSets := loggedSets state;
         completedExercises := completedExercises state;
         isLoading := false;
         error := Some payload |}
  | SELECT_EXERCISE exerciseName index =>
      {| userId := userId state;
         currentDay := currentDay state;
         dailyWorkout := dailyWorkout state;
         currentExerciseIndex := index;
         currentExercise := Some exerciseName;
         referenceData := None;
         loggedSets := [];
         completedExercises := completedExercises state;
         isLoading := isLoading state;
         error := error state |}
  | LOAD_REFERENCE_SUCCESS payload =>
      {| userId := userId state;
         currentDay := currentDay state;
         dailyWorkout := dailyWorkout state;
         currentExerciseIndex := currentExerciseIndex state;
         currentExercise := currentExercise state;
         referenceData := payload;
         loggedSets := loggedSets state;
         completedExercises := completedExercises state;
         isLoading := isLoading state;
         error := error state |}
  | LOG_SET_SUCCESS payload =>
      {| userId := userId state;
         currentDay := currentDay state;
         dailyWorkout := dailyWorkout state;
         currentExerciseIndex := currentExerciseIndex state;
         currentExercise := currentExercise state;
         referenceData := referenceData state;
         loggedSets := (loggedSets state ++ [payload])%list;
         completedExercises := completedExercises state;
         isLoading := isLoading state;
         error := error state |}
  | COMPLETE_EXERCISE payload =>
      {| userId := userId state;
         currentDay := currentDay state;
         dailyWorkout := dailyWorkout state;
         currentExerciseIndex := currentExerciseIndex state;
         currentExercise := currentExercise state;
         referenceData := referenceData state;
         loggedSets := loggedSets state;
         completedExercises :=
           Set_of (completedExercises state ++ [payload])%list;
         isLoading := isLoading state;
         error := error state |}
  | CLEAR_LOGGED_SETS =>
      {| userId := userId state;
         currentDay := currentDay state;
         dailyWorkout := dailyWorkout state;
         currentExerciseIndex := currentExerciseIndex state;
         currentExercise := currentExercise state;
         referenceData := referenceData state;
         loggedSets := [];
         completedExercises := completedExercises state;
         isLoading := isLoading state;
         error := error state |}
  | RESET_SESSION =>
      {| userId := userId state;
         currentDay := currentDay state;
         dailyWorkout := dailyWorkout state;
         currentExerciseIndex := (-1)%float;
         currentExercise := None;
         referenceData := None;
         loggedSets := [];
         completedExercises := completedExercises state;
         isLoading := isLoading state;
         error := None |}
  end.

(** The state after the actions of a list have been dispatched in order. *)
Definition dispatch_all (state : WorkoutState) (actions : list WorkoutAction)
  : WorkoutState :=
  fold_left workoutReducer actions state.

(** *** The plan day of a weekday *)

(** The members an object literal inherits from [Object.prototype]
    (ECMA-262, 20.1.3 and B.2.2); each is a function or an object, and so
    truthy. *)
Definition Object_prototype_members : list string :=
  ["constructor"; "__defineGetter__"; "__defineSetter__"; "hasOwnProperty";
   "__lookupGetter__"; "__lookupSetter__"; "isPrototypeOf";
   "propertyIsEnumerable"; "toString"; "valueOf"; "__proto__";
   "toLocaleString"].

Definition dayMapping : list (string * string) :=
  [("Monday", "Day 1"); ("Tuesday", "Day 2"); ("Wednesday", "Day 3");
   ("Thursday", "Day 4"); ("Friday", "Day 5"); ("Saturday", "Day 6");
   ("Sunday", "Day 7")].

(** What [mapWeekdayToPlanDay] returns: a string, or, for a key that names
    an inherited member, that member, which is no string. *)
Inductive PlanDay : Type :=
| Text (text : string)
| InheritedMember (key : string).

Fixpoint own_member (key : string) (members : list (string * string))
  : option string :=
  match members with
  | [] => None
  | (k, v) :: rest => if String.eqb k key then Some v else own_member key rest
  end.

(** [dayMapping[weekday] || weekday]: the own members are non-empty strings
    and the inherited ones are truthy, so the right operand is taken only
    when the key names no member. *)
Definition mapWeekdayToPlanDay (weekday : string) : PlanDay :=
  match own_member weekday dayMapping with
  | Some planDay => Text planDay
  | None =>
      if existsb (String.eqb weekday) Object_prototype_members
      then InheritedMember weekday
      else Text weekday
  end.

(** [createInitialState(userId = 'userid20OCt_3')]. The weekday comes from
    [getCurrentDay], and a weekday is a key of [dayMapping]; the second
    branch of the [match] is never taken. *)
Definition createInitialState (getDay : InitialState.DayOfWeek)
    (userId : option string) : WorkoutState :=
  let userId := match userId with Some id => id | None => "userid20OCt_3" end in
  let todayWeekday := InitialState.getCurrentDay getDay in
  let planDay := mapWeekdayToPlanDay todayWeekday in
  {| userId := userId;
     currentDay := match planDay with
                   | Text text => text
                   | InheritedMember key => key
                   end;
     dailyWorkout := None;
     currentExerciseIndex := (-1)%float;
     currentExercise := None;
     referenceData := None;
     loggedSets := [];
     completedExercises := Set_of [];
     isLoading := false;
     error := None |}.

(** The text "Day n" for a single digit [n]. *)
Definition plan_day (n : nat) : string :=
  "Day " ++ String (Ascii.ascii_of_nat (48 + n)%nat) "".

End WorkoutReducer2.

(* ================================================================== *)
(** ** sre/src/api/types.ts: [LogEntryCreate] and the other methods of the
       L-DPS client; the P-MIS client *)

Module LogEntryCreate.
Import Js.

(** [interface LogEntryCreate]; an optional field that is absent is
    [None]. *)
Record t : Type := {
  user_id : string;
  exercise_name : string;
  set_number : number;
  weight_used : number;
  reps_completed : number;
  duration : option number;
  distance : option number;
  rpe : option number
}.

End LogEntryCreate.

Module Clients.
Import Js Types LDPSClient.
Local Open Scope js_scope.
Local Open Scope string_scope.

(** [ToBoolean] (ECMA-262, 7.1.2) of a number, of a string and of a parsed
    JSON value. *)
Definition truthy_number (n : number) : bool :=
  negb (is_zero n || is_nan n).

Definition truthy_string (s : string) : bool :=
  negb (String.eqb s "").

Definition truthy (value : Json) : bool :=
  match value with
  | JNull => false
  | JBool b => b
  | JNumber n => truthy_number n
  | JString s => truthy_string s
  | JArray _ | JObject _ => true
  end.

(** The second argument of [fetch]. *)
Record RequestInit : Type := {
  method : string;
  headers : list (string * string);
  body : option string
}.

Definition GET : RequestInit :=
  {| method := "GET"; headers := []; body := None |}.

(** What [getHistory] returns: a value of the parsed body or the [[]] of
    the source, both JSON values, or the [entries] method that an array
    inherits from [Array.prototype]. *)
Inductive HistoryValue : Type :=
| OfJson (value : Json)
| ArrayPrototypeEntries.

(** [data.entries]: reading a property of [null] throws a TypeError; an
    array answers with its [entries] method; an object answers with its own
    member, if any; a string, a number or a boolean has no such property. *)
Definition get_entries (data : Json) : Completion (option HistoryValue) :=
  match data with
  | JNull =>
      Throw (new_TypeError
               "Cannot read properties of null (reading 'entries')")
  | JArray _ => Normal (Some ArrayPrototypeEntries)
  | JObject members =>
      Normal (match get_member "entries" members with
              | Some value => Some (OfJson value)
              | None => None
              end)
  | _ => Normal None
  end.

Section WithEnvironment.

Variable Number_toString : number -> string.
Variable encodeURIComponent : string -> Completion string.

(** [JSON.stringify] of a log entry. *)
Variable JSON_stringify : LogEntryCreate.t -> string.

(** [fetch(url, init)] and [fetch(url)]: how the returned promise settles. *)
Variable fetch : string -> option RequestInit -> Completion Response.

(** *** [LDPSClient] *)

Definition logSet_try (baseUrl : string) (logEntry : LogEntryCreate.t)
  : Completion (Completion Json) :=
  response <- fetch (baseUrl ++ "/api/v1/logs")
                (Some {| method := "POST";
                         headers := [("Content-Type", "application/json")];
                         body := Some (JSON_stringify logEntry) |}) ;;
  if negb (ok response) then
    error <- Normal
               (match json response with
                | Normal body => body
                | Throw _ =>
                    JObject
                      [("detail",
                         JString ("Failed to log set: " ++ statusText response));
                       ("status", JNumber (response_status response))]
                end) ;;
    error_detail <- get_property error "detail" ;;
    thrown <- new_Error_of Number_toString error_detail ;;
    Throw thrown
  else
    Normal (json response).

(** [async logSet(logEntry)]; the promise of [response.json()] is returned
    without [await], as in [getLatestSession]. *)
Definition logSet (baseUrl : string) (logEntry : LogEntryCreate.t)
  : Completion Json :=
  returned <-
    try_catch (logSet_try baseUrl logEntry)
      (fun error =>
         if instanceof_Error error then Throw error
         else Throw (new_Error "Failed to log set")) ;;
  returned.

(** The URL of [getHistory]: the exercise name is appended when it is
    given and not the empty string. *)
Definition history_url (baseUrl userId : string) (exerciseName : option string)
    (limit : number) : Completion string :=
  let url := baseUrl ++ "/api/v1/logs/" ++ userId ++ "/history?limit="
               ++ Number_toString limit in
  match exerciseName with
  | Some name =>
      if truthy_string name then
        encoded <- encodeURIComponent name ;;
        Normal (url ++ "&exercise_name=" ++ encoded)
      else Normal url
  | None => Normal url
  end.

(** [async getHistory(userId, exerciseName?, limit = 100)]; the body is
    read with [await] inside the [try] block. *)
Definition getHistory (baseUrl userId : string) (exerciseName : option string)
    (limit : option number) : Completion HistoryValue :=
  let limit := match limit with Some n => n | None => 100%float end in
  try_catch
    (url <- history_url baseUrl userId exerciseName limit ;;
     response <- fetch url (Some GET) ;;
     if negb (ok response) then
       error <- Normal
                  (match json response with
                   | Normal body => body
                   | Throw _ =>
                       JObject
                         [("detail",
                            JString ("L-DPS error: " ++ statusText response));
                          ("status", JNumber (response_status response))]
                   end) ;;
       error_detail <- get_property error "detail" ;;
       thrown <- new_Error_of Number_toString error_detail ;;
       Throw thrown
     else
       data <- json response ;;
       entries <- get_entries data ;;
       Normal (match entries with
               | Some ArrayPrototypeEntries => ArrayPrototypeEntries
               | Some (OfJson value) =>
                   if truthy value then OfJson value else OfJson (JArray [])
               | None => OfJson (JArray [])
               end))
    (fun error =>
       if instanceof_Error error then Throw error
       else Throw (new_Error "Failed to fetch exercise history")).

(** [async healthCheck()], the same in both clients: [catch] without a
    binding returns [false]. *)
Definition healthCheck (baseUrl : string) : Completion bool :=
  try_catch
    (response <- fetch (baseUrl ++ "/") None ;;
     Normal (ok response))
    (fun _ => Normal false).

(** *** [PMISClient] *)

Definition getDailyWorkout_try (baseUrl userId day : string)
  : Completion (Completion Json) :=
  encodedDay <- encodeURIComponent day ;;
  response <- fetch (baseUrl ++ "/api/v1/plans/" ++ userId ++ "/" ++ encodedDay)
                (Some GET) ;;
  if response_status response === 404%float then
    Normal (Normal JNull)   (* No plan found for this day *)
  else if negb (ok response) then
    error <- Normal
               (match json response with
                | Normal body => body
                | Throw _ =>
                    JObject
                      [("detail",
                         JString ("P-MIS error: " ++ statusText response));
                       ("status", JNumber (response_status response))]
                end) ;;
    error_detail <- get_property error "detail" ;;
    thrown <- new_Error_of Number_toString error_detail ;;
    Throw thrown
  else
    Normal (json response).

Definition getDailyWorkout (baseUrl userId day : string) : Completion Json :=
  returned <-
    try_catch (getDailyWorkout_try baseUrl userId day)
      (fun error =>
         if instanceof_Error error then Throw error
         else Throw (new_Error "Failed to fetch daily workout")) ;;
  returned.

Definition getFullPlan_try (baseUrl userId : string)
  : Completion (Completion Json) :=
  response <- fetch (baseUrl ++ "/api/v1/plans/" ++ userId) (Some GET) ;;
  if response_status response === 404%float then
    Normal (Normal JNull)
  else if negb (ok response) then
    error <- Normal
               (match json response with
                | Normal body => body
                | Throw _ =>
                    JObject
                      [("detail",
                         JString ("P-MIS error: " ++ statusText response));
                       ("status", JNumber (response_status response))]
                end) ;;
    error_detail <- get_property error "detail" ;;
    thrown <- new_Error_of Number_toString error_detail ;;
    Throw thrown
  else
    Normal (json response).

Definition getFullPlan (baseUrl userId : string) : Completion Json :=
  returned <-
    try_catch (getFullPlan_try baseUrl userId)
      (fun error =>
         if instanceof_Error error then Throw error
         else Throw (new_Error "Failed to fetch training plan")) ;;
  returned.

End WithEnvironment.

(** *** Sample environment

    A service that answers every request with status 422 and the body that
    FastAPI sends for a request that fails validation, and a network that
    is down. *)

Definition validation_failure_response : Response :=
  {| response_status := 422%float;
     statusText := "Unprocessable Entity";
     json := Normal
               (JObject
                  [("detail",
                     JArray
                       [JObject [("loc", JArray [JString "body"; JString "rpe"]);
                                 ("msg", JString "Input should be less than or equal to 10")]])]) |}.

Definition offline (url : string) (init : option RequestInit)
  : Completion Response :=
  Throw (NonError "offline").

Definition sample_entry : LogEntryCreate.t :=
  {| LogEntryCreate.user_id := "user_123";
     LogEntryCreate.exercise_name := "Squat";
     LogEntryCreate.set_number := 1%float;
     LogEntryCreate.weight_used := 100%float;
     LogEntryCreate.reps_completed := 10%float;
     LogEntryCreate.duration := None;
     LogEntryCreate.distance := None;
     LogEntryCreate.rpe := Some 11%float |}.

Definition as_text (logEntry : LogEntryCreate.t) : string := "{}".

(** A service that fails with status 500 and a [detail] text, one that
    answers a history request with an empty history, and one whose OK
    response stops being readable with a value that is no [Error]. *)
Definition server_error_response : Response :=
  {| response_status := 500%float;
     statusText := "Internal Server Error";
     json := Normal (JObject [("detail", JString "Database is locked")]) |}.


Definition interrupted_ok_response : Response :=
  {| response_status := 200%float;
     statusText := "OK";
     json := Throw (NonError "interrupted") |}.

(** The parsed JSON value is an object. *)
Definition is_object (value : Json) : bool :=
  match value with
  | JObject _ => true
  | _ => false
  end.

(** The parsed JSON value is an object with an own member named
    [toString], which shadows [Object.prototype.toString]. *)
Definition shadows_toString (value : Json) : bool :=
  match value with
  | JObject members =>
      match get_member "toString" members with
      | Some _ => true
      | None => false
      end
  | _ => false
  end.

End Clients.

(* ================================================================== *)
(** ** The exercise page ([ExerciseDetailPage])

    The page reads the workout state of the context, loads the reference
    session, logs sets and finishes the exercise. The actions it dispatches
    are applied by the reducer in the order of dispatch. *)

Module ExerciseDetailPage.
Import Js Types WorkoutReducer2.
Local Open Scope string_scope.


(** [array.length > 0] *)
Definition is_nonempty {A : Type} (array : list A) : bool :=
  match array with
  | [] => false
  | _ :: _ => true
  end.

Section WithClient.

(** [ldpsClient.getLatestSession(userId, exerciseName)] and
    [ldpsClient.logSet(logEntry)] with the types their signatures declare. *)
Variable getLatestSession :
  string -> string -> Completion (option SessionReference).
Variable logSet : LogEntryCreate.t -> Completion LogEntryResponse.


(** [handleLogSet(weight, reps, rpe?)]: the actions it dispatches, or the
    rejection of [logSet], after which nothing is dispatched. *)
Definition handleLogSet (state : WorkoutState) (decodedName : string)
    (weight reps : number) (rpe : option number)
  : Completion (list WorkoutAction) :=
  let setNumber :=
    (ProgressiveOverload.whole (List.length (loggedSets state)) + 1)%float in
  let logEntry :=
    {| LogEntryCreate.user_id := userId state;
       LogEntryCreate.exercise_name := decodedName;
       LogEntryCreate.set_number := setNumber;
       LogEntryCreate.weight_used := weight;
       LogEntryCreate.reps_completed := reps;
       LogEntryCreate.duration := None;
       LogEntryCreate.distance := None;
       LogEntryCreate.rpe := rpe |} in
  Js.bind (logSet logEntry) (fun response =>
  Normal [LOG_SET_SUCCESS response]).

End WithClient.

(** [handleFinish]: the actions it dispatches before navigating to the
    workout list. *)
Definition handleFinish (state : WorkoutState) (decodedName : string)
  : list WorkoutAction :=
  (if is_nonempty (loggedSets state)
   then [COMPLETE_EXERCISE decodedName]
   else [])
  ++ [RESET_SESSION].

(** [state.referenceData ? calculateProgression(state.referenceData) : null],
    evaluated at each render. *)
Definition progression (Number_toString : number -> string)
    (state : WorkoutState) : Completion (option ProgressiveOverload.Progression) :=
  match referenceData state with
  | Some reference =>
      Js.bind (ProgressiveOverload.calculateProgression Number_toString reference)
        (fun p => Normal (Some p))
  | None => Normal None
  end.


(** The same for [logSet]: the parsed body is taken for a
    [LogEntryResponse]. *)
Definition typed_logSet
    (as_LogEntryResponse : LDPSClient.Json -> LogEntryResponse)
    (outcome : Completion LDPSClient.Json)
  : Completion LogEntryResponse :=
  match outcome with
  | Normal body => Normal (as_LogEntryResponse body)
  | Throw reason => Throw reason
  end.

(** [onLogSet={handleLogSet}]: the promise the form awaits settles when
    [handleLogSet] has dispatched, with no value. *)
Definition onLogSet_of (handled : Completion (list WorkoutAction))
  : Completion unit :=
  match handled with
  | Normal _ => Normal tt
  | Throw reason => Throw reason
  end.

(** *** Sample data

    The log entry of the L-DPS README for a first set of squats, and the
    response of the service that carries it. *)
Definition sample_log_entry : LogEntryResponse :=
  {| log_user_id := "user_123";
     log_exercise_name := "Squat";
     log_set_number := 1%float;
     log_weight_used := 60%float;
     log_reps_completed := 10%float;
     log_duration := None;
     log_distance := None;
     log_rpe := None;
     log_entry_id := "550e8400-e29b-41d4-a716-446655440000";
     log_timestamp := "2025-10-17T14:32:10.123Z";
     created_at := "2025-10-17T14:32:10.123Z" |}.

Definition created_response : LDPSClient.Response :=
  {| LDPSClient.response_status := 201%float;
     LDPSClient.statusText := "Created";
     LDPSClient.json :=
       Normal
         (LDPSClient.JObject
            [("log_entry_id",
               LDPSClient.JString "550e8400-e29b-41d4-a716-446655440000")]) |}.

End ExerciseDetailPage.

(* ================================================================== *)
(** ** The set form ([SetLogger]) *)

Module SetLogger.
Import Js Types Clients.
Local Open Scope js_scope.
Local Open Scope string_scope.

(** The state of the component. [error] is [None] for [null] and for
    [undefined], which the component does not tell apart. *)
Record FormState : Type := {
  weight : string;
  reps : string;
  rpe : string;
  isLogging : bool;
  error : option string
}.

(** What a submission did: the arguments [onLogSet] was called with, if it
    was called, the state of the form afterwards, and the value the handler
    rejected with, if it did. *)
Record Submission : Type := {
  called_with : option (number * number * option number);
  form : FormState;
  rejection : option Thrown
}.

Definition with_error (state : FormState) (message : option string)
  : FormState :=
  {| weight := weight state; reps := reps state; rpe := rpe state;
     isLogging := isLogging state; error := message |}.

Section WithEnvironment.

(** [parseFloat(text)] and [parseInt(text, 10)]. *)
Variable parseFloat : string -> number.
Variable parseInt10 : string -> number.

(** [onLogSet(weight, reps, rpe)]: how its promise settles. *)
Variable onLogSet : number -> number -> option number -> Completion unit.

(** [(err as Error).message] for a caught value that is no [Error]: the
    property if the value has one ([None] is [undefined]), or the TypeError
    of reading a property of [null] or [undefined]. *)
Variable message_of_other : string -> Completion (option string).

Definition caught_message (err : Thrown) : Completion (option string) :=
  match err with
  | ErrorInstance _ message => Normal (Some message)
  | NonError description => message_of_other description
  end.

(** The three checks of [handleSubmit]: the message of the first one that
    fails. [rpeNum] is [None] when the field is empty. *)
Definition validation_error (weightNum repsNum : number)
    (rpeNum : option number) : option string :=
  if is_nan weightNum || is_nan repsNum then
    Some "Please enter valid numbers"
  else if Js.le weightNum 0%float || Js.le repsNum 0%float then
    Some "Weight and reps must be positive"
  else if match rpeNum with
          | Some n => truthy_number n && (Js.lt n 1%float || (n >? 10%float))
          | None => false
          end then
    Some "RPE must be between 1 and 10"
  else None.

Definition handleSubmit (state : FormState) : Submission :=
  let weightNum := parseFloat (weight state) in
  let repsNum := parseInt10 (reps state) in
  let rpeNum :=
    if truthy_string (rpe state) then Some (parseInt10 (rpe state))
    else None in
  match validation_error weightNum repsNum rpeNum with
  | Some message =>
      {| called_with := None;
         form := with_error state (Some message);
         rejection := None |}
  | None =>
      (* setIsLogging(true); setError(null); then try / catch / finally *)
      match onLogSet weightNum repsNum rpeNum with
      | Normal _ =>
          {| called_with := Some (weightNum, repsNum, rpeNum);
             form := {| weight := ""; reps := ""; rpe := "";
                        isLogging := false; error := None |};
             rejection := None |}
      | Throw err =>
          match caught_message err with
          | Normal message =>
              {| called_with := Some (weightNum, repsNum, rpeNum);
                 form := {| weight := weight state; reps := reps state;
                            rpe := rpe state;
                            isLogging := false; error := message |};
                 rejection := None |}
          | Throw reason =>
              {| called_with := Some (weightNum, repsNum, rpeNum);
                 form := {| weight := weight state; reps := reps state;
                            rpe := rpe state;
                            isLogging := false; error := None |};
                 rejection := Some reason |}
          end
      end
  end.

End WithEnvironment.

(** *** Sample environment

    Parsers that know the texts "60", "10" and "0" and answer NaN for any
    other text; a service that accepts every set. *)

Definition sample_parse (text : string) : number :=
  if String.eqb text "60" then 60%float
  else if String.eqb text "10" then 10%float
  else if String.eqb text "0" then 0%float
  else nan.

Definition accepting (weight reps : number) (rpe : option number)
  : Completion unit := Normal tt.

Definition no_message (description : string) : Completion (option string) :=
  Normal None.

End SetLogger.

(* ================================================================== *)
(** * Properties *)

(** ** The order of numbers

    [>], [>=] and [===] of JavaScript are the IEEE-754 comparisons; their
    order properties are derived from the specification of the primitive
    floats ([SFcompare]). *)

Module NumberFacts.
Import Js.
Local Open Scope js_scope.

Ltac cmp_cases :=
  repeat match goal with
  | H : context [Pos.compare_cont Eq ?a ?b] |- _ =>
      change (Pos.compare_cont Eq a b) with (Pos.compare a b) in H
  | |- context [Pos.compare_cont Eq ?a ?b] =>
      change (Pos.compare_cont Eq a b) with (Pos.compare a b)
  end;
  repeat match goal with
  | H : context [Z.compare ?a ?b] |- _ => destruct (Z.compare_spec a b)
  | |- context [Z.compare ?a ?b] => destruct (Z.compare_spec a b)
  | H : context [Pos.compare ?a ?b] |- _ => destruct (Pos.compare_spec a b)
  | |- context [Pos.compare ?a ?b] => destruct (Pos.compare_spec a b)
  end;
  simpl in *; subst; try discriminate; try reflexivity; try lia.

Ltac by_cases2 a b :=
  destruct a as [[|]|[|]| |[|] ? ?], b as [[|]|[|]| |[|] ? ?];
  simpl; try discriminate; try reflexivity; try (intros; assumption);
  intros; cmp_cases.

Ltac by_cases3 a b c :=
  destruct a as [[|]|[|]| |[|] ? ?], b as [[|]|[|]| |[|] ? ?],
           c as [[|]|[|]| |[|] ? ?];
  simpl; try discriminate; try reflexivity; try (intros; assumption);
  intros; cmp_cases.

Lemma below_trans (s1 s2 : bool) (a b c : spec_float) :
  below s1 a b = true -> below s2 b c = true -> below (s1 || s2) a c = true.
Proof.
  unfold below. destruct s1, s2; by_cases3 a b c.
Qed.

Lemma below_strict_weak (a b : spec_float) :
  below true a b = true -> below false a b = true.
Proof.
  unfold below. destruct (SFcompare a b) as [[ | | ]|]; simpl; congruence.
Qed.

Lemma below_asym (s : bool) (a b : spec_float) :
  below s a b = true -> below (negb s) b a = false.
Proof.
  unfold below. destruct s; by_cases2 a b.
Qed.

Lemma below_total (a b : spec_float) :
  a <> S754_nan -> b <> S754_nan ->
  below true a b = false -> below false b a = true.
Proof.
  unfold below. by_cases2 a b; congruence.
Qed.

Lemma SFeqb_below (a b : spec_float) :
  SFeqb a b = true -> below false a b = true /\ below false b a = true.
Proof.
  unfold SFeqb, below. by_cases2 a b; split; cmp_cases.
Qed.

Lemma below_strict_not_eqb (a b : spec_float) :
  below true a b = true -> SFeqb a b = false.
Proof.
  unfold SFeqb, below. destruct (SFcompare a b) as [[ | | ]|]; simpl; congruence.
Qed.

Lemma gt_below (a b : number) : (a >? b) = below true (Prim2SF b) (Prim2SF a).
Proof.
  unfold gt, below. rewrite ltb_spec. unfold SFltb.
  destruct (SFcompare _ _) as [[ | | ]|]; reflexivity.
Qed.

Lemma ge_below (a b : number) : (a >=? b) = below false (Prim2SF b) (Prim2SF a).
Proof.
  unfold ge, below. rewrite leb_spec. unfold SFleb.
  destruct (SFcompare _ _) as [[ | | ]|]; reflexivity.
Qed.

Lemma not_nan_spec (a : number) : is_nan a = false -> Prim2SF a <> S754_nan.
Proof.
  unfold is_nan. rewrite eqb_spec. intros H E. rewrite E in H. discriminate.
Qed.

Lemma gt_trans (a b c : number) :
  (a >? b) = true -> (b >? c) = true -> (a >? c) = true.
Proof.
  rewrite !gt_below. intros H1 H2.
  exact (below_trans true true _ _ _ H2 H1).
Qed.

Lemma ge_trans (a b c : number) :
  (a >=? b) = true -> (b >=? c) = true -> (a >=? c) = true.
Proof.
  rewrite !ge_below. intros H1 H2.
  exact (below_trans false false _ _ _ H2 H1).
Qed.

Lemma gt_asym (a b : number) : (a >? b) = true -> (b >? a) = false.
Proof.
  rewrite !gt_below. intros H. apply (below_asym true) in H. simpl in H.
  destruct (below true (Prim2SF a) (Prim2SF b)) eqn:E; [|reflexivity].
  apply below_strict_weak in E. congruence.
Qed.

Lemma gt_not_strict_eq (a b : number) : (a >? b) = true -> (b === a) = false.
Proof.
  rewrite gt_below. unfold strict_eq. rewrite eqb_spec.
  apply below_strict_not_eqb.
Qed.

Lemma ge_not_gt (a b : number) : (a >=? b) = true -> (b >? a) = false.
Proof.
  rewrite ge_below, gt_below. apply (below_asym false).
Qed.

Lemma strict_eq_sym (a b : number) : (a === b) = (b === a).
Proof.
  unfold strict_eq. rewrite !eqb_spec. unfold SFeqb.
  destruct (Prim2SF a) as [[|]|[|]| |[|] ma ea],
           (Prim2SF b) as [[|]|[|]| |[|] mb eb];
    simpl; try reflexivity;
    change (Pos.compare_cont Eq ?x ?y) with (Pos.compare x y);
    rewrite (Z.compare_antisym ea eb), (Pos.compare_antisym ma mb);
    destruct (ea ?= eb)%Z, (ma ?= mb)%positive; reflexivity.
Qed.

Lemma gt_strict_eq_r (a b c : number) :
  (a >? b) = true -> (c === a) = true -> (c >? b) = true.
Proof.
  rewrite !gt_below. unfold strict_eq. rewrite eqb_spec. intros H E.
  apply SFeqb_below in E. destruct E as [_ E].
  exact (below_trans true false _ _ _ H E).
Qed.

Lemma not_gt_ge (a b : number) :
  is_nan a = false -> is_nan b = false -> (a >? b) = false -> (b >=? a) = true.
Proof.
  rewrite gt_below, ge_below. intros Ha Hb.
  apply below_total; apply not_nan_spec; assumption.
Qed.

Lemma strict_eq_ge (a b : number) :
  (a === b) = true -> (a >=? b) = true /\ (b >=? a) = true.
Proof.
  unfold strict_eq. rewrite eqb_spec, !ge_below. intros E.
  apply SFeqb_below in E. tauto.
Qed.


End NumberFacts.

(* ================================================================== *)
(** ** Progressive overload *)

Module ProgressiveOverloadFacts.
Import Js Types ProgressiveOverload NumberFacts.
Local Open Scope float_scope.
Local Open Scope js_scope.

(** The reductions of [calculateProgression], [isBeatPreviousSession] and
    [findBestSet] run the same callback. *)
Lemma findBestSet_fold (reference : SessionReference) :
  findBestSet reference = reduce (sets reference) heavier.
Proof. reflexivity. Qed.

(** Where the left-to-right scan ends: at [max] itself, or at a later set
    that is strictly heavier than [max]. In both cases no set before the
    result ties with it, and no set at all is heavier. *)
Lemma heavier_scan (rest : list SetData) :
  forall max : SetData,
  exists before after,
    max :: rest = before ++ fold_left heavier rest max :: after
    /\ (before = []
        \/ (weight_used (fold_left heavier rest max) >? weight_used max) = true)
    /\ (forall s, In s before ->
          (weight_used s === weight_used (fold_left heavier rest max)) = false
          /\ (weight_used s >? weight_used (fold_left heavier rest max)) = false)
    /\ (forall s, In s after ->
          (weight_used s >? weight_used (fold_left heavier rest max)) = false).
Proof.
  induction rest as [|x rest IH]; intros max; simpl.
  - exists [], []. refine (conj eq_refl (conj (or_introl eq_refl) (conj _ _)));
      intros s [].
  - unfold heavier at 2 4 6 8 10.
    destruct (weight_used x >? weight_used max) eqn:Hx.
    + destruct (IH x) as (before & after & Hsplit & Hfirst & Hbefore & Hafter).
      exists (max :: before), after.
      assert (Hmax : (weight_used (fold_left heavier rest x) >? weight_used max) = true).
      { destruct Hfirst as [-> | Hlt].
        - injection Hsplit as <- _. exact Hx.
        - exact (gt_trans _ _ _ Hlt Hx). }
      refine (conj _ (conj (or_intror Hmax) (conj _ Hafter))).
      * simpl. now rewrite Hsplit.
      * intros s [<- | H]; [|now apply Hbefore]. split.
        -- now apply gt_not_strict_eq.
        -- now apply gt_asym.
    + destruct (IH max) as (before & after & Hsplit & Hfirst & Hbefore & Hafter).
      destruct before as [|b before].
      * injection Hsplit as Hr Ha. exists [], (x :: after).
        refine (conj _ (conj (or_introl eq_refl) (conj _ _))).
        -- simpl. now rewrite <- Hr, <- Ha.
        -- intros s [].
        -- intros s [<- | H]; [now rewrite <- Hr | now apply Hafter].
      * destruct Hfirst as [|Hlt]; [discriminate|].
        injection Hsplit as <- Hrest.
        exists (max :: x :: before), after.
        refine (conj _ (conj (or_intror Hlt) (conj _ Hafter))).
        -- simpl. now rewrite <- Hrest.
        -- intros s [<- | [<- | H]].
           ++ apply Hbefore. now left.
           ++ split.
              ** destruct (weight_used x === weight_used (fold_left heavier rest max))
                   eqn:E; [|reflexivity].
                 rewrite (gt_strict_eq_r _ _ _ Hlt E) in Hx. discriminate.
              ** destruct (weight_used x >? weight_used (fold_left heavier rest max))
                   eqn:E; [|reflexivity].
                 rewrite (gt_trans _ _ _ E Hlt) in Hx. discriminate.
           ++ apply Hbefore. now right.
Qed.

Lemma ascending_head (rest : list SetData) :
  forall first : SetData,
  set_number_ascending (first :: rest) = true ->
  forall s, In s rest -> Js.le (set_number first) (set_number s) = true.
Proof.
  induction rest as [|next rest IH]; intros first Hasc s Hin; [destruct Hin|].
  simpl in Hasc. apply andb_prop in Hasc. destruct Hasc as [Hle Hasc].
  destruct Hin as [<- | Hin]; [exact Hle|].
  exact (ge_trans _ _ _ (IH next Hasc s Hin) Hle).
Qed.

Lemma ascending_split (before : list SetData) (best : SetData)
    (after : list SetData) :
  set_number_ascending (before ++ best :: after) = true ->
  (forall s, In s before -> Js.le (set_number s) (set_number best) = true)
  /\ (forall s, In s after -> Js.le (set_number best) (set_number s) = true).
Proof.
  induction before as [|b before IH]; intros Hasc.
  - split; [intros s []|]. exact (ascending_head after best Hasc).
  - assert (Htail : set_number_ascending (before ++ best :: after) = true).
    { change ((b :: before) ++ best :: after)
        with (b :: (before ++ best :: after)) in Hasc.
      simpl in Hasc. apply andb_prop in Hasc. tauto. }
    destruct (IH Htail) as [Hb Ha]. split; [|exact Ha].
    intros s [<- | Hin]; [|now apply Hb].
    apply (ascending_head _ _ Hasc). apply in_or_app. right. now left.
Qed.

Lemma weights_are_numbers_In (sets : list SetData) (s : SetData) :
  weights_are_numbers sets = true -> In s sets ->
  is_nan (weight_used s) = false.
Proof.
  unfold weights_are_numbers. rewrite forallb_forall. intros H Hin.
  apply H in Hin. now apply negb_true_iff in Hin.
Qed.

(** The scan ends at a set [best] that every set listed before it is
    strictly lighter than and that no set listed after it is heavier than:
    the first set of maximum weight. *)
Lemma fold_heavier_In (rest : list SetData) :
  forall max : SetData, In (fold_left heavier rest max) (max :: rest).
Proof.
  induction rest as [|x rest IH]; intros max; [now left|].
  cbn [fold_left]. destruct (IH (heavier max x)) as [H | H].
  - rewrite <- H. unfold heavier.
    destruct (weight_used x >? weight_used max); [right; now left | now left].
  - right. now right.
Qed.

Lemma fold_heavier_keeps (after : list SetData) (best : SetData) :
  (forall s, In s after -> (weight_used s >? weight_used best) = false) ->
  fold_left heavier after best = best.
Proof.
  induction after as [|x after IH]; intros Hafter; [reflexivity|].
  cbn [fold_left]. unfold heavier at 2.
  rewrite (Hafter x (or_introl eq_refl)).
  apply IH. intros s Hin. apply Hafter. now right.
Qed.

Lemma findBestSet_of_first_heaviest (reference : SessionReference)
    (before : list SetData) (best : SetData) (after : list SetData) :
  sets reference = before ++ best :: after ->
  (forall s, In s before -> (weight_used best >? weight_used s) = true) ->
  (forall s, In s after -> (weight_used s >? weight_used best) = false) ->
  findBestSet reference = Normal best.
Proof.
  intros Hsets Hbefore Hafter. rewrite findBestSet_fold, Hsets.
  destruct before as [|first before]; cbn [app reduce]; f_equal.
  - now apply fold_heavier_keeps.
  - rewrite fold_left_app. cbn [fold_left].
    assert (Hin : In (fold_left heavier before first) (first :: before))
      by apply fold_heavier_In.
    unfold heavier at 2. rewrite (Hbefore _ Hin).
    now apply fold_heavier_keeps.
Qed.

Section WithNumberToString.

Variable Number_toString : number -> string.

(** What [calculateProgression] returns once its reduction has produced the
    heaviest set. *)
Lemma calculateProgression_of_best (reference : SessionReference)
    (best : SetData) :
  findBestSet reference = Normal best ->
  exists p,
    calculateProgression Number_toString reference = Normal p
    /\ lastWeight p = weight_used best
    /\ lastReps p = reps_completed best
    /\ (suggestedWeight p, suggestedReps p, strategy p)
       = if reps_completed best <? 12
         then (weight_used best, reps_completed best + 1, reps)
         else (weight_used best + 2.5,
               Math_max [8; reps_completed best - 2], weight).
Proof.
  unfold findBestSet, calculateProgression. intros ->. simpl.
  destruct (reps_completed best <? 12); eexists; repeat split.
Qed.

Lemma isBeatPreviousSession_of_best (currentWeight currentReps : number)
    (reference : SessionReference) (best : SetData) :
  findBestSet reference = Normal best ->
  isBeatPreviousSession currentWeight currentReps reference
  = Normal ((currentWeight >? weight_used best)
            || ((currentWeight === weight_used best)
                && (currentReps >? reps_completed best))).
Proof.
  unfold findBestSet, isBeatPreviousSession. now intros ->.
Qed.

(** C2. For a non-empty session listed by ascending set number, the
    heaviest-set selection of [findBestSet], which [calculateProgression]
    and [isBeatPreviousSession] repeat, returns a set [best] of the session
    such that no set is heavier (and, when no weight is NaN, every weight is
    at most that of [best]); no set listed before [best] has the same
    weight, so [best] is the first set of maximum weight in the list, with
    the sets before it having set numbers at most its own and the sets after
    it at least its own. *)
Theorem findBestSet_first_heaviest (reference : SessionReference) :
  sets reference <> [] ->
  set_number_ascending (sets reference) = true ->
  exists best before after,
    findBestSet reference = Normal best
    /\ sets reference = before ++ best :: after
    /\ (forall s, In s (sets reference) ->
          (weight_used s >? weight_used best) = false)
    /\ (weights_are_numbers (sets reference) = true ->
        forall s, In s (sets reference) ->
          (weight_used best >=? weight_used s) = true)
    /\ (forall s, In s before ->
          (weight_used s === weight_used best) = false)
    /\ (forall s, In s before ->
          Js.le (set_number s) (set_number best) = true)
    /\ (forall s, In s after ->
          Js.le (set_number best) (set_number s) = true)
    /\ (exists p,
          calculateProgression Number_toString reference = Normal p
          /\ lastWeight p = weight_used best
          /\ lastReps p = reps_completed best)
    /\ (forall currentWeight currentReps,
          isBeatPreviousSession currentWeight currentReps reference
          = Normal ((currentWeight >? weight_used best)
                    || ((currentWeight === weight_used best)
                        && (currentReps >? reps_completed best)))).
Proof.
  intros Hne Hasc.
  destruct (sets reference) as [|first rest] eqn:Hsets; [congruence|].
  destruct (heavier_scan rest first)
    as (before & after & Hsplit & _ & Hbefore & Hafter).
  set (best := fold_left heavier rest first) in *.
  assert (Hbest : findBestSet reference = Normal best).
  { unfold findBestSet. now rewrite Hsets. }
  assert (Hmax : forall s, In s (first :: rest) ->
                   (weight_used s >? weight_used best) = false).
  { intros s Hin. rewrite Hsplit in Hin. apply in_app_or in Hin.
    destruct Hin as [Hin | [<- | Hin]].
    - now apply Hbefore.
    - destruct (weight_used best >? weight_used best) eqn:E; [|reflexivity].
      now rewrite (gt_asym _ _ E) in E.
    - now apply Hafter. }
  rewrite Hsplit in Hasc. destruct (ascending_split _ _ _ Hasc) as [Hlow Hhigh].
  exists best, before, after.
  refine (conj Hbest (conj Hsplit (conj Hmax (conj _ (conj _
            (conj Hlow (conj Hhigh (conj _ _)))))))).
  - intros Hnum s Hin. apply not_gt_ge.
    + exact (weights_are_numbers_In _ _ Hnum Hin).
    + apply (weights_are_numbers_In _ _ Hnum). rewrite Hsplit.
      apply in_or_app. right. now left.
    + now apply Hmax.
  - intros s Hin. now apply Hbefore.
  - destruct (calculateProgression_of_best reference best Hbest)
      as (p & Hp & Hw & Hr & _).
    now exists p.
  - intros cw cr. now apply isBeatPreviousSession_of_best.
Qed.

(** [Math.max(8, x)] is the larger of 8 and [x] when [x] is a number. *)
Lemma Math_max_8 (x : number) :
  is_nan x = false -> Math_max [8; x] = if x >? 8 then x else 8.
Proof.
  intros Hx. unfold Math_max. simpl. rewrite Hx.
  change (is_nan 8) with false. cbv iota.
  change (is_pos_zero 8) with false. cbv iota. simpl andb. cbv iota.
  change (8 >? neg_infinity) with true. cbv iota.
  change (is_neg_zero 8) with false. rewrite andb_false_r. reflexivity.
Qed.

(** C3. For a non-empty session whose heaviest set has weight [w] and reps
    [r] with [r < 12], [calculateProgression] returns [suggestedWeight = w],
    [suggestedReps = r + 1] and the strategy "reps"; a heaviest set of
    (100, 10) gives the suggestion (100, 11). The heaviest set [best] is
    given by the weights: every set listed before it is strictly lighter,
    and no set listed after it is heavier. *)
Theorem calculateProgression_reps_strategy (reference : SessionReference)
    (before : list SetData) (best : SetData) (after : list SetData) :
  sets reference = before ++ best :: after ->
  (forall s, In s before -> (weight_used best >? weight_used s) = true) ->
  (forall s, In s after -> (weight_used s >? weight_used best) = false) ->
  (reps_completed best <? 12) = true ->
  exists p,
    calculateProgression Number_toString reference = Normal p
    /\ suggestedWeight p = weight_used best
    /\ suggestedReps p = reps_completed best + 1
    /\ strategy p = reps
    /\ (weight_used best = 100 -> reps_completed best = 10 ->
        suggestedWeight p = 100 /\ suggestedReps p = 11).
Proof.
  intros Hsets Hbefore Hafter Hlt.
  pose proof (findBestSet_of_first_heaviest reference before best after
                Hsets Hbefore Hafter) as Hbest.
  destruct (calculateProgression_of_best reference best Hbest)
    as (p & Hp & _ & _ & Hsuggest).
  rewrite Hlt in Hsuggest. injection Hsuggest as Hw Hr Hs.
  exists p. refine (conj Hp (conj Hw (conj Hr (conj Hs _)))).
  intros Ew Er. rewrite Hw, Hr, Ew, Er. split; reflexivity.
Qed.

(** C4. For a non-empty session whose heaviest set has weight [w] and reps
    [r] with [r >= 12], [calculateProgression] returns
    [suggestedWeight = w + 2.5], [suggestedReps = Math.max(8, r - 2)] and the
    strategy "weight"; a heaviest set of (100, 12) gives the suggestion
    (102.5, 10). The heaviest set [best] is given by the weights: every set
    listed before it is strictly lighter, and no set listed after it is
    heavier. *)
Theorem calculateProgression_weight_strategy (reference : SessionReference)
    (before : list SetData) (best : SetData) (after : list SetData) :
  sets reference = before ++ best :: after ->
  (forall s, In s before -> (weight_used best >? weight_used s) = true) ->
  (forall s, In s after -> (weight_used s >? weight_used best) = false) ->
  (reps_completed best >=? 12) = true ->
  exists p,
    calculateProgression Number_toString reference = Normal p
    /\ suggestedWeight p = weight_used best + 2.5
    /\ suggestedReps p = Math_max [8; reps_completed best - 2]
    /\ (is_nan (reps_completed best - 2) = false ->
        suggestedReps p = if reps_completed best - 2 >? 8
                          then reps_completed best - 2 else 8)
    /\ strategy p = weight
    /\ (weight_used best = 100 -> reps_completed best = 12 ->
        suggestedWeight p = 102.5 /\ suggestedReps p = 10).
Proof.
  intros Hsets Hbefore Hafter Hge.
  pose proof (findBestSet_of_first_heaviest reference before best after
                Hsets Hbefore Hafter) as Hbest.
  destruct (calculateProgression_of_best reference best Hbest)
    as (p & Hp & _ & _ & Hsuggest).
  apply ge_not_gt in Hge. unfold gt in Hge. rewrite Hge in Hsuggest.
  injection Hsuggest as Hw Hr Hs.
  exists p. refine (conj Hp (conj Hw (conj Hr (conj _ (conj Hs _))))).
  - intros Hnum. rewrite Hr. now apply Math_max_8.
  - intros Ew Er. rewrite Hw, Hr, Ew, Er. split; reflexivity.
Qed.


Lemma calculateVolume_fold (reference : SessionReference) :
  calculateVolume reference
  = fold_left (fun sum set => sum + weight_used set * reps_completed set)
      (sets reference) 0.
Proof. reflexivity. Qed.

(** C6. [calculateVolume] returns the sum, over the sets of the session in
    their order, of [weight_used * reps_completed]; the three sets (100,10),
    (105,8), (100,10) give 2840. *)
Theorem calculateVolume_is_sum (reference : SessionReference) :
  calculateVolume reference
  = sum_of (map (fun set => weight_used set * reps_completed set)
              (sets reference))
  /\ (forall a b c : SetData,
        sets reference = [a; b; c] ->
        (weight_used a, reps_completed a) = (100, 10) ->
        (weight_used b, reps_completed b) = (105, 8) ->
        (weight_used c, reps_completed c) = (100, 10) ->
        calculateVolume reference = 2840).
Proof.
  split.
  - rewrite calculateVolume_fold. unfold sum_of.
    induction (sets reference) as [|last earlier IH] using rev_ind.
    + reflexivity.
    + rewrite fold_left_app, map_app, rev_app_distr. simpl. now rewrite IH.
  - intros a b c Hsets Ha Hb Hc. rewrite calculateVolume_fold, Hsets. simpl.
    injection Ha as -> ->. injection Hb as -> ->. injection Hc as -> ->.
    reflexivity.
Qed.

(** Halves of a kilogram from 0 to 500 kg with rep counts from 1 to 30:
    every increment registers. *)
Lemma increment_registers_in_gym_range :
  forallb (fun k =>
             forallb (fun r =>
                        increment_registers
                          (sample_set 1 (half_kilos k) (whole r)))
                     (seq 1 30))
          (seq 0 1001) = true.
Proof. vm_compute. reflexivity. Qed.


(** In the range of [increment_registers_in_gym_range] the suggestion beats
    the session: heaviest sets of up to 500 kg in steps of half a kilogram,
    with 1 to 30 reps. *)
Lemma suggestion_beats_gym_session (reference : SessionReference)
    (best : SetData) (k r : nat) :
  findBestSet reference = Normal best ->
  weight_used best = half_kilos k -> (k <= 1000)%nat ->
  reps_completed best = whole r -> (1 <= r <= 30)%nat ->
  exists p,
    calculateProgression Number_toString reference = Normal p
    /\ isBeatPreviousSession (suggestedWeight p) (suggestedReps p) reference
       = Normal true.
Proof.
  intros Hbest Hw Hk Hr Hrange.
  assert (Hinc : increment_registers best = true).
  { pose proof increment_registers_in_gym_range as Hall.
    rewrite forallb_forall in Hall.
    assert (Hin : In k (seq 0 1001)) by (apply in_seq; lia).
    specialize (Hall k Hin). rewrite forallb_forall in Hall.
    assert (Hin' : In r (seq 1 30)) by (apply in_seq; lia).
    specialize (Hall r Hin').
    unfold increment_registers in *. simpl in Hall. now rewrite Hw, Hr. }
  destruct (calculateProgression_of_best reference best Hbest)
    as (p & Hp & _ & _ & Hsuggest).
  exists p. split; [exact Hp|].
  rewrite (isBeatPreviousSession_of_best _ _ _ _ Hbest). f_equal.
  unfold increment_registers in Hinc.
  destruct (reps_completed best <? 12); injection Hsuggest as -> -> _;
    rewrite Hinc; [apply orb_true_r | reflexivity].
Qed.

End WithNumberToString.

(** *** Instances *)

(** C2 at a session where sets 1 and 3 tie at 105 kg: set 1 is selected. *)
Lemma findBestSet_first_heaviest_tie :
  exists best before after,
    findBestSet
      (sample_session [sample_set 1 105 8; sample_set 2 100 10; sample_set 3 105 10])
    = Normal best
    /\ [sample_set 1 105 8; sample_set 2 100 10; sample_set 3 105 10]
       = before ++ best :: after
    /\ before = []
    /\ set_number best = 1.
Proof.
  destruct (findBestSet_first_heaviest unrendered
              (sample_session
                 [sample_set 1 105 8; sample_set 2 100 10; sample_set 3 105 10]))
    as (best & before & after & Hbest & Hsplit & _).
  - discriminate.
  - reflexivity.
  - injection Hbest as <-. exists (sample_set 1 105 8), before, after.
    split; [reflexivity|]. split; [exact Hsplit|].
    destruct before as [|b before]; [split; reflexivity|].
    simpl in Hsplit. injection Hsplit as _ Hrest.
    destruct before as [|? [|? [|? ?]]]; discriminate.
Defined.

(** C3 at a session whose heaviest set (100, 10) is listed second, after a
    lighter set and before a set of the same weight: the suggestion is
    (100, 11), by reps. *)
Lemma calculateProgression_reps_100_10 :
  exists p,
    calculateProgression unrendered
      (sample_session
         [sample_set 1 95 12; sample_set 2 100 10; sample_set 3 100 8])
    = Normal p
    /\ suggestedWeight p = 100
    /\ suggestedReps p = 11
    /\ strategy p = reps.
Proof.
  destruct (calculateProgression_reps_strategy unrendered
              (sample_session
                 [sample_set 1 95 12; sample_set 2 100 10; sample_set 3 100 8])
              [sample_set 1 95 12] (sample_set 2 100 10) [sample_set 3 100 8])
    as (p & Hp & Hw & Hr & Hs & _).
  - reflexivity.
  - intros s [<- | []]. reflexivity.
  - intros s [<- | []]. reflexivity.
  - reflexivity.
  - exists p. repeat split; assumption.
Defined.

(** C4 at a session whose heaviest set (100, 12) is listed second, between
    two lighter sets: the suggestion is (102.5, 10), by weight. *)
Lemma calculateProgression_weight_100_12 :
  exists p,
    calculateProgression unrendered
      (sample_session
         [sample_set 1 90 15; sample_set 2 100 12; sample_set 3 95 10])
    = Normal p
    /\ suggestedWeight p = 102.5
    /\ suggestedReps p = 10
    /\ strategy p = weight.
Proof.
  destruct (calculateProgression_weight_strategy unrendered
              (sample_session
                 [sample_set 1 90 15; sample_set 2 100 12; sample_set 3 95 10])
              [sample_set 1 90 15] (sample_set 2 100 12) [sample_set 3 95 10])
    as (p & Hp & Hw & Hr & _ & Hs & _).
  - reflexivity.
  - intros s [<- | []]. reflexivity.
  - intros s [<- | []]. reflexivity.
  - reflexivity.
  - exists p. repeat split; assumption.
Defined.


(** C6 at the session (100,10), (105,8), (100,10). *)
Lemma calculateVolume_2840 : calculateVolume leg_press_session = 2840.
Proof.
  apply (proj2 (calculateVolume_is_sum leg_press_session)
           (sample_set 1 100 10) (sample_set 2 105 8) (sample_set 3 100 10));
    reflexivity.
Defined.



End ProgressiveOverloadFacts.

(* ================================================================== *)
(** ** The workout reducer *)

Module WorkoutReducerFacts.
Import Js Types WorkoutReducer.

(** C10. For every state and payload, [workoutReducer] on [LOG_SET_SUCCESS]
    returns a state whose [loggedSets] is the previous list with the payload
    appended at the end, the earlier entries unchanged and in order, and
    whose other fields are those of the previous state. *)
Theorem log_set_success_appends (state : WorkoutState)
    (payload : LogEntryResponse) :
  let state' := workoutReducer state (LOG_SET_SUCCESS payload) in
  loggedSets state' = loggedSets state ++ [payload]
  /\ firstn (List.length (loggedSets state)) (loggedSets state')
     = loggedSets state
  /\ skipn (List.length (loggedSets state)) (loggedSets state') = [payload]
  /\ userId state' = userId state
  /\ currentDay state' = currentDay state
  /\ dailyWorkout state' = dailyWorkout state
  /\ currentExerciseIndex state' = currentExerciseIndex state
  /\ currentExercise state' = currentExercise state
  /\ referenceData state' = referenceData state
  /\ isLoading state' = isLoading state
  /\ error state' = error state.
Proof.
  simpl. split; [reflexivity|]. split; [|split; [|repeat split]].
  - rewrite firstn_app, firstn_all, Nat.sub_diag. simpl. apply app_nil_r.
  - rewrite skipn_app, skipn_all, Nat.sub_diag. reflexivity.
Qed.

End WorkoutReducerFacts.

(* ================================================================== *)
(** ** The L-DPS client *)

Module LDPSClientFacts.
Import Js Types LDPSClient NumberFacts.
Local Open Scope js_scope.

(** A status in the range of [response.ok] is not 404. *)
Lemma ok_not_404 (response : Response) :
  ok response = true -> (response_status response === 404%float) = false.
Proof.
  unfold ok. intros H. apply andb_prop in H. destruct H as [_ Hle].
  destruct (response_status response === 404%float) eqn:E; [|reflexivity].
  apply strict_eq_ge in E. destruct E as [Hge _].
  change (Js.le (response_status response) 299%float)
    with (299%float >=? response_status response) in Hle.
  pose proof (ge_trans _ _ _ Hle Hge) as Habs. vm_compute in Habs.
  discriminate.
Qed.

Section WithEnvironment.

Variable Number_toString : number -> string.
Variable encodeURIComponent : string -> Completion string.
Variable fetch : string -> Completion Response.

Lemma in_order_cons {A B : Type} (convert : A -> Completion B) (item : A)
    (rest : list A) :
  in_order convert (item :: rest)
  = (part <- convert item ;;
     parts <- in_order convert rest ;;
     Normal (part :: parts)).
Proof. reflexivity. Qed.

(** [ToString] of a parsed JSON value gives a string or throws the
    TypeError of an object that cannot be converted. *)
Lemma ToString_outcome :
  forall value : Json,
  (exists text, ToString Number_toString value = Normal text)
  \/ ToString Number_toString value
     = Throw (new_TypeError "Cannot convert object to primitive value").
Proof.
  fix IH 1.
  intros [ | [|] | n | s | items | members]; cbn [ToString];
    try (left; eexists; reflexivity).
  - assert (Hparts :
      (exists parts,
         in_order (fun item => match item with
                               | JNull => Normal ""%string
                               | _ => ToString Number_toString item
                               end) items = Normal parts)
      \/ in_order (fun item => match item with
                                | JNull => Normal ""%string
                                | _ => ToString Number_toString item
                                end) items
         = Throw (new_TypeError "Cannot convert object to primitive value")).
    { induction items as [|item rest IHrest]; [left; now exists []|].
      rewrite in_order_cons.
      assert (Hitem :
        (exists text,
           match item with
           | JNull => Normal ""%string
           | _ => ToString Number_toString item
           end = Normal text)
        \/ match item with
           | JNull => Normal ""%string
           | _ => ToString Number_toString item
           end
           = Throw (new_TypeError "Cannot convert object to primitive value")).
      { destruct (IH item) as [[text H] | H]; destruct item;
          try (left; eexists; reflexivity);
          try (left; exists text; exact H); right; exact H. }
      destruct Hitem as [[text ->] | ->]; [|right; reflexivity].
      destruct IHrest as [[parts ->] | ->]; [left; eexists|right];
        reflexivity. }
    destruct Hparts as [[parts ->] | ->]; [left; eexists|right]; reflexivity.
  - destruct (get_member "toString" members); [right|left; eexists];
      reflexivity.
Qed.

(** [throw new Error(detail)] throws an [Error] whatever [detail] is: the
    one it builds, or the TypeError of the conversion. *)
Lemma throw_new_Error_of (detail : option Json) :
  exists name message,
    forall B : Type,
    Js.bind (new_Error_of Number_toString detail)
      (fun thrown => @Throw B thrown)
    = Throw (ErrorInstance name message).
Proof.
  destruct detail as [value|]; cbn [new_Error_of].
  - destruct (ToString_outcome value) as [[text ->] | ->];
      do 2 eexists; intros B; reflexivity.
  - do 2 eexists; intros B; reflexivity.
Qed.

(** C7, as amended. When the service answers a latest-session request with
    status 404, [getLatestSession] returns [null]; for every other non-OK
    response it throws an [Error]; for an OK response it returns what
    [response.json()] settles to, so that it fails there only if reading the
    body does. *)
Theorem getLatestSession_by_status (baseUrl userId exerciseName : string)
    (sessionThresholdHours : option number) (encodedName : string)
    (response : Response) :
  encodeURIComponent exerciseName = Normal encodedName ->
  fetch (request_url Number_toString baseUrl userId encodedName
           sessionThresholdHours)
  = Normal response ->
  let outcome :=
    getLatestSession Number_toString encodeURIComponent fetch
      baseUrl userId exerciseName sessionThresholdHours in
  ((response_status response === 404%float) = true -> outcome = Normal JNull)
  /\ ((response_status response === 404%float) = false ->
      ok response = false ->
      exists name message, outcome = Throw (ErrorInstance name message))
  /\ (ok response = true -> outcome = json response).
Proof.
  intros Hname Hfetch outcome. subst outcome.
  unfold getLatestSession, getLatestSession_try, request_url in *.
  rewrite Hname. simpl. rewrite Hfetch. simpl.
  split; [|split].
  - intros ->. reflexivity.
  - intros -> ->. simpl.
    destruct (json response) as [body|reason]; cbn [Js.bind try_catch].
    + destruct (get_property body "detail") as [detail|err] eqn:Hdetail;
        cbn [Js.bind try_catch].
      * destruct (throw_new_Error_of detail) as (name & message & H).
        rewrite H. simpl. now exists name, message.
      * destruct body; try discriminate. injection Hdetail as <-.
        do 2 eexists; reflexivity.
    + do 2 eexists; reflexivity.
  - intros Hok. rewrite (ok_not_404 _ Hok), Hok. simpl.
    destruct (json response); reflexivity.
Qed.

(** A request that gets no response: the rejection of [fetch] reaches the
    [catch] block, and the function throws an [Error]. *)
Lemma getLatestSession_network_failure (baseUrl userId exerciseName : string)
    (sessionThresholdHours : option number) (encodedName : string)
    (reason : Thrown) :
  encodeURIComponent exerciseName = Normal encodedName ->
  fetch (request_url Number_toString baseUrl userId encodedName
           sessionThresholdHours)
  = Throw reason ->
  getLatestSession Number_toString encodeURIComponent fetch
    baseUrl userId exerciseName sessionThresholdHours
  = Throw (if instanceof_Error reason then reason
           else new_Error "Failed to fetch latest session").
Proof.
  intros Hname Hfetch.
  unfold getLatestSession, getLatestSession_try, request_url in *.
  rewrite Hname. simpl. rewrite Hfetch. simpl.
  destruct (instanceof_Error reason); reflexivity.
Qed.

End WithEnvironment.

(** C7 at a service that answers 404: the result is [null]. *)
Lemma getLatestSession_404_null :
  getLatestSession two_as_text unescaped (fun _ => Normal not_found_response)
    "http://localhost:8001" "user_123" "Squat" None
  = Normal JNull.
Proof.
  apply (getLatestSession_by_status two_as_text unescaped
           (fun _ => Normal not_found_response)
           "http://localhost:8001" "user_123" "Squat" None
           "Squat" not_found_response eq_refl eq_refl).
  reflexivity.
Defined.

(** C7, counterexample. The service answers 200, an OK response, with a
    body that is not JSON: [getLatestSession] throws. *)
Lemma getLatestSession_throws_on_ok_response :
  ok unreadable_ok_response = true
  /\ exists message,
       getLatestSession two_as_text unescaped
         (fun _ => Normal unreadable_ok_response)
         "http://localhost:8001" "user_123" "Squat" None
       = Throw (ErrorInstance "SyntaxError" message).
Proof.
  split; [reflexivity|]. eexists. reflexivity.
Qed.

End LDPSClientFacts.

(* ================================================================== *)
(** ** The latest session of the ledger *)

Module LDPSFacts.
Import LDPS.
Local Open Scope Z_scope.

Lemma insert_by_timestamp_desc_perm (entry : LogEntry) (ordered : list LogEntry) :
  Permutation (insert_by_timestamp_desc entry ordered) (entry :: ordered).
Proof.
  induction ordered as [|head tail IH]; simpl.
  - apply Permutation_refl.
  - destruct (timestamp head <=? timestamp entry).
    + apply Permutation_refl.
    + apply perm_trans with (head :: entry :: tail).
      * now apply perm_skip.
      * apply perm_swap.
Qed.

Lemma insert_by_timestamp_desc_sorted (entry : LogEntry)
    (ordered : list LogEntry) :
  descending ordered -> descending (insert_by_timestamp_desc entry ordered).
Proof.
  induction ordered as [|head tail IH]; simpl; intros Hd.
  - auto.
  - destruct (timestamp head <=? timestamp entry) eqn:E.
    + apply Z.leb_le in E. simpl. auto.
    + apply Z.leb_gt in E. destruct Hd as [Hhead Htail].
      specialize (IH Htail). simpl. split; [|exact IH].
      destruct tail as [|next tail]; simpl in *.
      * lia.
      * destruct (timestamp next <=? timestamp entry); lia.
Qed.

(** The query returns the entries of the pair, each as often as the ledger
    holds it, most recent first. *)
Lemma query_sorted_filter (user exercise : string) (ledger : list LogEntry) :
  descending (query user exercise ledger)
  /\ Permutation (query user exercise ledger)
       (filter (has_key user exercise) ledger).
Proof.
  unfold query.
  induction (filter (has_key user exercise) ledger) as [|e l [IHs IHp]]; simpl.
  - split; [exact I | apply perm_nil].
  - split.
    + now apply insert_by_timestamp_desc_sorted.
    + eapply perm_trans; [apply insert_by_timestamp_desc_perm|].
      now apply perm_skip.
Qed.

Lemma insert_by_set_number_perm (entry : LogEntry) (ordered : list LogEntry) :
  Permutation (insert_by_set_number entry ordered) (entry :: ordered).
Proof.
  induction ordered as [|head tail IH]; simpl.
  - apply Permutation_refl.
  - destruct (set_number entry <? set_number head).
    + apply Permutation_refl.
    + apply perm_trans with (head :: entry :: tail).
      * now apply perm_skip.
      * apply perm_swap.
Qed.

Lemma sort_by_set_number_perm (session : list LogEntry) :
  Permutation (sort_by_set_number session) session.
Proof.
  unfold sort_by_set_number.
  assert (H : forall ordered,
             Permutation
               (fold_left (fun ordered entry => insert_by_set_number entry ordered)
                          session ordered)
               (session ++ ordered)).
  { induction session as [|e session IH]; intros ordered; simpl.
    - apply Permutation_refl.
    - eapply perm_trans; [apply IH|].
      eapply perm_trans;
        [apply Permutation_app_head, insert_by_set_number_perm|].
      apply Permutation_sym, Permutation_middle. }
  specialize (H []). now rewrite app_nil_r in H.
Qed.

Lemma accumulate_head (threshold : Duration) (current : LogEntry)
    (older : list LogEntry) :
  exists tail, accumulate threshold current older = current :: tail.
Proof.
  destruct older as [|next older]; simpl.
  - now exists [].
  - destruct (gap current next <=? threshold); eexists; reflexivity.
Qed.

Lemma last_cons_default (entries : list LogEntry) (first d d' : LogEntry) :
  last (first :: entries) d = last (first :: entries) d'.
Proof.
  revert first. induction entries as [|e entries IH]; intros first.
  - reflexivity.
  - change (last (e :: entries) d = last (e :: entries) d'). apply IH.
Qed.

(** The entries accumulated from [current] are a prefix of the list that
    starts with it; consecutive entries of the prefix are within the
    threshold; and the entry that follows the prefix, if there is one, lies
    more than the threshold before the last entry of the prefix. *)
Lemma accumulate_prefix (threshold : Duration) (older : list LogEntry) :
  forall current : LogEntry,
  exists rest,
    current :: older = accumulate threshold current older ++ rest
    /\ within_threshold threshold (accumulate threshold current older)
    /\ (forall next tail, rest = next :: tail ->
          threshold
          < gap (last (accumulate threshold current older) current) next).
Proof.
  induction older as [|next older IH]; intros current.
  - exists []. simpl. repeat split; auto. intros ? ? [=].
  - simpl. destruct (gap current next <=? threshold) eqn:E.
    + apply Z.leb_le in E.
      destruct (IH next) as (rest & Hsplit & Hwithin & Hbound).
      destruct (accumulate_head threshold next older) as (tail & Ha).
      exists rest. split; [|split].
      * simpl. now rewrite <- Hsplit.
      * rewrite Ha in *. simpl. split; [exact E | exact Hwithin].
      * intros n t Hrest. specialize (Hbound n t Hrest).
        rewrite Ha in *.
        change (last (current :: next :: tail) current)
          with (last (next :: tail) current).
        now rewrite (last_cons_default tail next current next).
    + apply Z.leb_gt in E. exists (next :: older). simpl.
      repeat split; auto. intros n t [= <- _]. exact E.
Qed.

(** A prefix whose consecutive entries are within the threshold is no
    longer than the accumulated one. *)
Lemma accumulate_maximal (threshold : Duration) (older : list LogEntry) :
  forall (current : LogEntry) (prefix rest : list LogEntry),
  current :: older = prefix ++ rest ->
  within_threshold threshold prefix ->
  (List.length prefix <= List.length (accumulate threshold current older))%nat.
Proof.
  induction older as [|next older IH]; intros current prefix rest Hsplit Hw.
  - destruct prefix as [|p prefix]; simpl; [lia|].
    injection Hsplit as _ Hnil. destruct prefix; [simpl; lia | discriminate].
  - destruct prefix as [|p prefix]; [simpl; lia|].
    injection Hsplit as <- Htail.
    destruct prefix as [|q prefix].
    + destruct (accumulate_head threshold current (next :: older)) as (t & ->).
      simpl. lia.
    + injection Htail as <- Htail. simpl in Hw. destruct Hw as [Hgap Hw].
      simpl accumulate. apply Z.leb_le in Hgap. rewrite Hgap.
      specialize (IH next (next :: prefix) rest).
      simpl in *. apply le_n_S. apply IH; [now rewrite Htail | exact Hw].
Qed.

Lemma earliest_fold_le (others : list LogEntry) :
  forall least : Instant,
  fold_left (fun least entry => Z.min least (timestamp entry)) others least
  <= least
  /\ (forall e, In e others ->
        fold_left (fun least entry => Z.min least (timestamp entry)) others least
        <= timestamp e).
Proof.
  induction others as [|o others IH]; intros least; simpl.
  - split; [lia | intros e []].
  - destruct (IH (Z.min least (timestamp o))) as [Hle Hall]. split; [lia|].
    intros e [<- | Hin]; [lia | now apply Hall].
Qed.

(** C1. When the pair (user, exercise) has at least one entry, the
    latest-session query finds a session: its sets are, up to the order by
    set number, a non-empty prefix [session] of the timestamp-descending
    entry list of the pair; consecutive entries of [session] are at most the
    threshold apart; the first entry left out, if any, lies more than the
    threshold before the last entry of [session]; and no prefix with gaps
    within the threshold is longer. With entries at 10:05, 10:00, 07:05 and
    07:00 and the default threshold of 2 hours, the session is the pair of
    entries at 10:05 and 10:00. *)
Theorem latest_session_is_maximal_recent_prefix (user exercise : string)
    (threshold : Duration) (ledger : list LogEntry) :
  query user exercise ledger <> [] ->
  exists reference session older,
    getLatestSessionReference user exercise threshold ledger = Found reference
    /\ descending (query user exercise ledger)
    /\ query user exercise ledger = session ++ older
    /\ session <> []
    /\ within_threshold threshold session
    /\ (forall next tail newest,
          older = next :: tail -> threshold < gap (last session newest) next)
    /\ (forall prefix rest,
          query user exercise ledger = prefix ++ rest ->
          within_threshold threshold prefix ->
          (List.length prefix <= List.length session)%nat)
    /\ Permutation (sets reference) session
    /\ total_sets reference = List.length session
    /\ (forall e, In e session -> session_timestamp reference <= timestamp e)
    /\ (forall e1 e2 e3 e4,
          query user exercise ledger = [e1; e2; e3; e4] ->
          timestamp e1 = clock 10 5 -> timestamp e2 = clock 10 0 ->
          timestamp e3 = clock 7 5 -> timestamp e4 = clock 7 0 ->
          threshold = default_threshold ->
          session = [e1; e2]).
Proof.
  intros Hne. unfold getLatestSessionReference, cluster_latest.
  destruct (query_sorted_filter user exercise ledger) as [Hdesc _].
  destruct (query user exercise ledger) as [|newest entries] eqn:Hq;
    [congruence|].
  destruct (accumulate_prefix threshold entries newest)
    as (older & Hsplit & Hwithin & Hbound).
  destruct (accumulate_head threshold newest entries) as (tail & Hhead).
  eexists. exists (accumulate threshold newest entries), older.
  split; [reflexivity|]. split; [exact Hdesc|]. split; [exact Hsplit|].
  split; [rewrite Hhead; discriminate|]. split; [exact Hwithin|].
  split; [|split; [|split; [|split; [|split]]]].
  - intros next tl d Hold. specialize (Hbound next tl Hold).
    rewrite Hhead in *. now rewrite (last_cons_default tail newest d newest).
  - intros prefix rest. apply accumulate_maximal.
  - apply sort_by_set_number_perm.
  - reflexivity.
  - simpl. intros e Hin.
    now apply (earliest_fold_le (accumulate threshold newest entries) (timestamp newest)).
  - intros e1 e2 e3 e4 [= -> ->] H1 H2 H3 H4 ->. simpl.
    unfold gap, default_threshold, clock in *. rewrite H1, H2, H3.
    reflexivity.
Qed.

(** The latest-session query answers NotFound exactly for an empty history,
    and a session it finds has at least one set. *)
Lemma found_session_has_sets (user exercise : string) (threshold : Duration)
    (ledger : list LogEntry) :
  match getLatestSessionReference user exercise threshold ledger with
  | NotFound => query user exercise ledger = []
  | Found reference =>
      query user exercise ledger <> [] /\ sets reference <> []
  end.
Proof.
  unfold getLatestSessionReference, cluster_latest.
  destruct (query user exercise ledger) as [|newest entries]; [reflexivity|].
  split; [discriminate|]. simpl. intros Hnil.
  destruct (accumulate_head threshold newest entries) as (tail & Hhead).
  pose proof (sort_by_set_number_perm (accumulate threshold newest entries)) as P.
  rewrite Hnil, Hhead in P. now apply Permutation_nil_cons in P.
Qed.

(** C1 at the sample ledger: the query finds the entries of 10:05 and 10:00
    and leaves out those of 07:05 and 07:00. *)
Lemma latest_session_of_sample_ledger :
  exists reference,
    getLatestSessionReference "user_123" "Leg Press" default_threshold
      sample_ledger = Found reference
    /\ Permutation (sets reference)
         [sample_entry "d" (clock 10 5) 2; sample_entry "c" (clock 10 0) 1]
    /\ total_sets reference = 2%nat.
Proof.
  destruct (latest_session_is_maximal_recent_prefix
              "user_123" "Leg Press" default_threshold sample_ledger)
    as (reference & session & older & Hfound & _ & _ & _ & _ & _ & _
        & Hperm & Htotal & _ & Hfour).
  - discriminate.
  - assert (Hsession : session = [sample_entry "d" (clock 10 5) 2;
                                  sample_entry "c" (clock 10 0) 1]).
    { apply (Hfour _ _ (sample_entry "b" (clock 7 5) 2)
               (sample_entry "a" (clock 7 0) 1)); reflexivity. }
    exists reference. rewrite Hsession in *. auto.
Defined.

End LDPSFacts.

(* ================================================================== *)
(** ** Sessions without sets *)

Module EmptySessionFacts.
Import Js Types ProgressiveOverload.
Local Open Scope float_scope.

(** C9. On a session with no sets, [calculateProgression], [findBestSet],
    [isBeatPreviousSession] and [calculateImprovement] all fail with the
    TypeError of [reduce]; on a session with at least one set they all
    return. The latest-session query of the service answers NotFound for an
    empty history and never a session without sets. *)
Theorem reductions_require_a_set (Number_toString : number -> string)
    (currentWeight currentReps : number) (reference : SessionReference) :
  (sets reference = [] ->
   let failure :=
     new_TypeError "Reduce of empty array with no initial value" in
   calculateProgression Number_toString reference = Throw failure
   /\ findBestSet reference = Throw failure
   /\ isBeatPreviousSession currentWeight currentReps reference = Throw failure
   /\ calculateImprovement currentWeight currentReps reference = Throw failure)
  /\ (sets reference <> [] ->
      returns (calculateProgression Number_toString reference) = true
      /\ returns (findBestSet reference) = true
      /\ returns (isBeatPreviousSession currentWeight currentReps reference)
         = true
      /\ returns (calculateImprovement currentWeight currentReps reference)
         = true)
  /\ (forall (user exercise : string) (threshold : LDPS.Duration)
             (ledger : list LDPS.LogEntry),
        match LDPS.getLatestSessionReference user exercise threshold ledger with
        | LDPS.NotFound => LDPS.query user exercise ledger = []
        | LDPS.Found found =>
            LDPS.query user exercise ledger <> [] /\ LDPS.sets found <> []
        end).
Proof.
  unfold calculateProgression, findBestSet, isBeatPreviousSession,
    calculateImprovement, findBestSet.
  split; [|split].
  - intros ->. repeat split.
  - destruct (sets reference) as [|first rest]; [congruence|]. intros _. simpl.
    destruct (_ <? 12)%float; repeat split.
  - apply LDPSFacts.found_session_has_sets.
Qed.

(** C9 at a session without sets. *)
Lemma empty_session_throws :
  calculateProgression unrendered (sample_session [])
  = Throw (new_TypeError "Reduce of empty array with no initial value")
  /\ findBestSet (sample_session [])
     = Throw (new_TypeError "Reduce of empty array with no initial value")
  /\ isBeatPreviousSession 100 10 (sample_session [])
     = Throw (new_TypeError "Reduce of empty array with no initial value")
  /\ calculateImprovement 100 10 (sample_session [])
     = Throw (new_TypeError "Reduce of empty array with no initial value").
Proof.
  apply (proj1 (reductions_require_a_set unrendered 100 10 (sample_session []))).
  reflexivity.
Defined.

End EmptySessionFacts.

(* ================================================================== *)
(** ** Sequences of actions *)

Module InitialStateFacts.
Import Js Types WorkoutReducer InitialState.

Lemma dispatch_all_cons (state : WorkoutState) (action : WorkoutAction)
    (rest : list WorkoutAction) :
  dispatch_all state (action :: rest)
  = dispatch_all (workoutReducer state action) rest.
Proof. reflexivity. Qed.

(** X1. After any sequence of actions, [loggedSets] holds the payloads of
    the [LOG_SET_SUCCESS] actions dispatched since the last action that
    empties it ([SELECT_EXERCISE], [CLEAR_LOGGED_SETS], [RESET_SESSION]), in
    the order of dispatch, after the sets of the starting state when the
    sequence has no such action. *)
Theorem loggedSets_after_dispatch (actions : list WorkoutAction) :
  forall state : WorkoutState,
  loggedSets (dispatch_all state actions)
  = (if fst (logged_since_clear actions) then [] else loggedSets state)
    ++ snd (logged_since_clear actions).
Proof.
  induction actions as [|action rest IH]; intros state.
  - simpl. now rewrite app_nil_r.
  - rewrite dispatch_all_cons, IH. simpl.
    destruct (logged_since_clear rest) as [cleared logged]. simpl.
    destruct cleared; [reflexivity|].
    destruct action; simpl; try reflexivity.
    now rewrite <- app_assoc.
Qed.

Lemma workoutReducer_consistent (state : WorkoutState)
    (action : WorkoutAction) :
  consistent state -> consistent (workoutReducer state action).
Proof.
  unfold consistent. intros (Hboth & Hloading & Hindex).
  destruct action; simpl; repeat split; auto; try discriminate.
Qed.

(** X2. Every state reached from an initial state by dispatching actions
    holds a loaded workout and an error never together, holds no error
    while [isLoading] is true, and has [currentExerciseIndex] equal to -1
    whenever [currentExercise] is null. *)
Theorem reachable_states_consistent (getDay : DayOfWeek)
    (userId : option string) (actions : list WorkoutAction) :
  consistent (dispatch_all (createInitialState getDay userId) actions).
Proof.
  assert (Hinit : consistent (createInitialState getDay userId)).
  { unfold consistent. simpl. auto. }
  revert Hinit. generalize (createInitialState getDay userId).
  induction actions as [|action rest IH]; intros state Hstate.
  - exact Hstate.
  - rewrite dispatch_all_cons. apply IH.
    now apply workoutReducer_consistent.
Qed.

(** X3. A sequence of actions without [SET_USER_ID] leaves [userId] as it
    was. *)
Theorem userId_kept (actions : list WorkoutAction) :
  forall state : WorkoutState,
  existsb is_SET_USER_ID actions = false ->
  userId (dispatch_all state actions) = userId state.
Proof.
  induction actions as [|action rest IH]; intros state Hnone.
  - reflexivity.
  - simpl in Hnone. apply orb_false_elim in Hnone.
    destruct Hnone as [Haction Hrest].
    rewrite dispatch_all_cons, (IH _ Hrest).
    destruct action; try reflexivity. discriminate.
Qed.

(** X3 at a session of three actions. *)
Lemma userId_kept_over_a_session :
  userId
    (dispatch_all (createInitialState day_1 None)
       [LOAD_WORKOUT_START; SELECT_EXERCISE "Leg Press" 0%float;
        RESET_SESSION])
  = "user_123"%string.
Proof.
  apply (userId_kept
           [LOAD_WORKOUT_START; SELECT_EXERCISE "Leg Press" 0%float;
            RESET_SESSION]
           (createInitialState day_1 None)).
  reflexivity.
Defined.

End InitialStateFacts.

(* ================================================================== *)
(** ** Completed exercises *)

Module WorkoutReducer2Facts.
Import Js Types WorkoutReducer2.
Local Open Scope string_scope.
Local Open Scope list_scope.

Lemma Set_has_In (set : list string) (value : string) :
  Set_has set value = true <-> In value set.
Proof.
  unfold Set_has. rewrite existsb_exists. split.
  - intros (y & Hin & Heq). apply String.eqb_eq in Heq. now subst.
  - intros Hin. exists value. split; [exact Hin | apply String.eqb_refl].
Qed.

Lemma Set_has_false (set : list string) (value : string) :
  Set_has set value = false <-> ~ In value set.
Proof.
  rewrite <- Set_has_In. destruct (Set_has set value); split;
    congruence.
Qed.

(** A list that holds no element twice is the set of its elements, in the
    same order, whatever set of earlier elements it extends. *)
Lemma fold_add_once_nodup (values : list string) :
  forall set : list string,
  NoDup (set ++ values) ->
  fold_left add_once values set = set ++ values.
Proof.
  induction values as [|value values IH]; intros set Hnodup; simpl.
  - now rewrite app_nil_r.
  - assert (Hfresh : Set_has set value = false).
    { apply Set_has_false. intros Hin.
      apply NoDup_remove_2 in Hnodup. apply Hnodup.
      apply in_or_app. now left. }
    unfold add_once at 2. unfold Set_has in Hfresh. rewrite Hfresh.
    rewrite IH; rewrite <- app_assoc; [reflexivity | exact Hnodup].
Qed.

Lemma Set_of_nodup (values : list string) :
  NoDup values -> Set_of values = values.
Proof.
  intros Hnodup. exact (fold_add_once_nodup values [] Hnodup).
Qed.

Lemma fold_add_once_spec (values : list string) :
  forall set : list string,
  NoDup set ->
  NoDup (fold_left add_once values set)
  /\ (forall x, In x (fold_left add_once values set)
                <-> In x set \/ In x values).
Proof.
  induction values as [|value values IH]; intros set Hnodup; simpl.
  - split; [exact Hnodup | intros x; tauto].
  - assert (Hstep : NoDup (add_once set value)
                    /\ forall x, In x (add_once set value)
                                 <-> In x set \/ x = value).
    { unfold add_once. destruct (existsb (String.eqb value) set) eqn:E.
      - split; [exact Hnodup|]. intros x. split; [tauto|].
        intros [H | ->]; [exact H | now apply Set_has_In].
      - split.
        + apply NoDup_app; [exact Hnodup | repeat constructor; intros [] |].
          intros x Hin [<- | []]. now apply Set_has_false in E.
        + intros x. rewrite in_app_iff. simpl. intuition congruence. }
    destruct Hstep as [Hnd Hin]. destruct (IH _ Hnd) as [Hnd' Hin'].
    split; [exact Hnd'|]. intros x. rewrite Hin', Hin. intuition congruence.
Qed.

Lemma Set_of_spec (values : list string) :
  NoDup (Set_of values) /\ (forall x, In x (Set_of values) <-> In x values).
Proof.
  destruct (fold_add_once_spec values [] (NoDup_nil _)) as [Hnd Hin].
  split; [exact Hnd|]. intros x. rewrite (Hin x). simpl. tauto.
Qed.

Lemma dispatch_all_step (state : WorkoutState) (action : WorkoutAction)
    (rest : list WorkoutAction) :
  dispatch_all state (action :: rest)
  = dispatch_all (workoutReducer state action) rest.
Proof. reflexivity. Qed.

Lemma dispatch_all_app (state : WorkoutState)
    (first second : list WorkoutAction) :
  dispatch_all state (first ++ second)
  = dispatch_all (dispatch_all state first) second.
Proof. apply fold_left_app. Qed.

Lemma completed_kept_by_one (state : WorkoutState) (action : WorkoutAction)
    (name : string) :
  In name (completedExercises state) ->
  In name (completedExercises (workoutReducer state action)).
Proof.
  intros Hin. destruct action; simpl; try exact Hin.
  apply Set_of_spec. apply in_or_app. now left.
Qed.

(** X4. No action removes a name from [completedExercises]: an exercise
    that is completed stays completed after any sequence of actions,
    [RESET_SESSION] and [SET_CURRENT_DAY] included. *)
Theorem completed_stays_completed (actions : list WorkoutAction) :
  forall (state : WorkoutState) (name : string),
  Set_has (completedExercises state) name = true ->
  Set_has (completedExercises (dispatch_all state actions)) name = true.
Proof.
  induction actions as [|action rest IH]; intros state name Hhas.
  - exact Hhas.
  - rewrite dispatch_all_step. apply IH.
    apply Set_has_In. apply completed_kept_by_one. now apply Set_has_In.
Qed.

Lemma completed_nodup_by_one (state : WorkoutState) (action : WorkoutAction) :
  NoDup (completedExercises state) ->
  NoDup (completedExercises (workoutReducer state action)).
Proof.
  intros Hnd. destruct action; simpl; try exact Hnd.
  apply Set_of_spec.
Qed.

Lemma reachable_completed_nodup (getDay : InitialState.DayOfWeek)
    (userId : option string) (actions : list WorkoutAction) :
  NoDup (completedExercises
           (dispatch_all (createInitialState getDay userId) actions)).
Proof.
  assert (Hinit : NoDup (completedExercises (createInitialState getDay userId)))
    by apply NoDup_nil.
  revert Hinit. generalize (createInitialState getDay userId).
  induction actions as [|action rest IH]; intros state Hstate.
  - exact Hstate.
  - rewrite dispatch_all_step. apply IH. now apply completed_nodup_by_one.
Qed.

(** X5. In every state reached from an initial state, completing an
    exercise that is not yet completed appends its name to
    [completedExercises], and completing one that is already completed
    changes nothing, the state afterwards being the state before: a name is
    never held twice, and the count of completed exercises grows by at most
    one. In both cases every field of the state other than
    [completedExercises] is as it was. *)
Theorem complete_exercise_adds_once (getDay : InitialState.DayOfWeek)
    (userId : option string) (actions : list WorkoutAction) (name : string) :
  let state := dispatch_all (createInitialState getDay userId) actions in
  let state' := workoutReducer state (COMPLETE_EXERCISE name) in
  NoDup (completedExercises state)
  /\ completedExercises (workoutReducer state (COMPLETE_EXERCISE name))
     = (if Set_has (completedExercises state) name
        then completedExercises state
        else completedExercises state ++ [name])
  /\ workoutReducer (workoutReducer state (COMPLETE_EXERCISE name))
       (COMPLETE_EXERCISE name)
     = workoutReducer state (COMPLETE_EXERCISE name)
  /\ (Set_has (completedExercises state) name = true -> state' = state)
  /\ WorkoutReducer2.userId state' = WorkoutReducer2.userId state
  /\ currentDay state' = currentDay state
  /\ dailyWorkout state' = dailyWorkout state
  /\ currentExerciseIndex state' = currentExerciseIndex state
  /\ currentExercise state' = currentExercise state
  /\ referenceData state' = referenceData state
  /\ loggedSets state' = loggedSets state
  /\ isLoading state' = isLoading state
  /\ error state' = error state.
Proof.
  intros state state'. subst state'.
  assert (Hnd : NoDup (completedExercises state))
    by apply reachable_completed_nodup.
  assert (Hadd : forall set, NoDup set ->
            Set_of (set ++ [name])
            = if Set_has set name then set else set ++ [name]).
  { intros set Hset. unfold Set_of.
    rewrite fold_left_app.
    change (fold_left add_once [name] (fold_left add_once set [])
            = if Set_has set name then set else set ++ [name]).
    rewrite (fold_add_once_nodup set [] Hset). reflexivity. }
  split; [exact Hnd|]. split; [|split; [|split]].
  - simpl. now apply Hadd.
  - unfold workoutReducer at 1 3. simpl. f_equal.
    rewrite (Hadd _ Hnd).
    destruct (Set_has (completedExercises state) name) eqn:E.
    + rewrite (Hadd _ Hnd), E. reflexivity.
    + assert (Hnd' : NoDup (completedExercises state ++ [name])).
      { apply NoDup_app; [exact Hnd | repeat constructor; intros [] |].
        intros x Hin [<- | []]. now apply Set_has_false in E. }
      rewrite (Hadd _ Hnd').
      assert (Hin : Set_has (completedExercises state ++ [name]) name = true).
      { apply Set_has_In. apply in_or_app. right. now left. }
      now rewrite Hin.
  - intros Hheld. cbn [workoutReducer]. rewrite (Hadd _ Hnd), Hheld.
    destruct state; reflexivity.
  - cbn [workoutReducer]. repeat split; reflexivity.
Qed.

(** X4 at a state with one completed exercise. *)
Lemma completed_survives_reset :
  Set_has
    (completedExercises
       (dispatch_all
          (workoutReducer (createInitialState InitialState.day_1 None)
             (COMPLETE_EXERCISE "Leg Press"))
          [RESET_SESSION; SET_CURRENT_DAY "Day 2"; COMPLETE_EXERCISE "Squat"]))
    "Leg Press"
  = true.
Proof.
  apply (completed_stays_completed
           [RESET_SESSION; SET_CURRENT_DAY "Day 2"; COMPLETE_EXERCISE "Squat"]).
  reflexivity.
Defined.

(** X6. The initial state's [currentDay] is the plan day of today's
    weekday: "Day n" with n from 1 (Monday) to 7 (Sunday, whose [getDay] is
    0); different weekdays give different plan days, and
    [mapWeekdayToPlanDay] leaves a plan day as it is. *)
Theorem initial_currentDay_is_plan_day (getDay : InitialState.DayOfWeek)
    (userId : option string) :
  let state := createInitialState getDay userId in
  let n := match InitialState.index_of getDay with
           | O => 7%nat
           | S k => S k
           end in
  currentDay state = plan_day n
  /\ (1 <= n <= 7)%nat
  /\ mapWeekdayToPlanDay (InitialState.getCurrentDay getDay)
     = Text (currentDay state)
  /\ mapWeekdayToPlanDay (currentDay state) = Text (currentDay state)
  /\ (forall getDay' : InitialState.DayOfWeek,
        currentDay (createInitialState getDay' userId) = currentDay state ->
        getDay' = getDay).
Proof.
  destruct getDay; cbv zeta; (split; [reflexivity|]);
    (split; [simpl; lia|]); (split; [reflexivity|]);
    (split; [reflexivity|]);
    intros getDay'; destruct getDay'; simpl; intros H;
    first [reflexivity | discriminate H].
Qed.

(** X7. [mapWeekdayToPlanDay] is idempotent wherever it returns a string:
    a weekday goes to its plan day, which is no key of the mapping, and any
    other string that names no inherited member is returned as it is. *)
Theorem mapWeekdayToPlanDay_idempotent (weekday text : string) :
  mapWeekdayToPlanDay weekday = Text text ->
  mapWeekdayToPlanDay text = Text text.
Proof.
  unfold mapWeekdayToPlanDay.
  destruct (own_member weekday dayMapping) as [planDay|] eqn:Hown.
  - intros [= <-]. revert Hown. unfold dayMapping. cbn [own_member].
    repeat match goal with
    | |- context [String.eqb ?k weekday] => destruct (String.eqb k weekday)
    end; intros [= <-]; reflexivity.
  - destruct (existsb (String.eqb weekday) Object_prototype_members) eqn:Hinh;
      [discriminate|].
    intros [= <-]. now rewrite Hown, Hinh.
Qed.

(** X7 at "Monday". *)
Lemma mapWeekdayToPlanDay_twice_Monday :
  mapWeekdayToPlanDay "Day 1" = Text "Day 1".
Proof.
  apply (mapWeekdayToPlanDay_idempotent "Monday" "Day 1"). reflexivity.
Defined.

End WorkoutReducer2Facts.

(* ================================================================== *)
(** ** The exercise page *)

Module ExerciseDetailPageFacts.
Import Js Types WorkoutReducer2 ExerciseDetailPage.
Local Open Scope string_scope.
Local Open Scope list_scope.

(** X8. After [handleFinish] the session is reset: no logged sets, no
    current exercise, no reference. The exercise is completed afterwards
    exactly when a set had been logged or it was completed before; the
    completion of any other exercise is as it was. *)
Theorem handleFinish_completes_and_resets (state : WorkoutState)
    (decodedName : string) :
  let state' := dispatch_all state (handleFinish state decodedName) in
  loggedSets state' = []
  /\ currentExercise state' = None
  /\ referenceData state' = None
  /\ (Set_has (completedExercises state') decodedName = true
      <-> loggedSets state <> []
          \/ Set_has (completedExercises state) decodedName = true)
  /\ (forall other : string,
        other <> decodedName ->
        Set_has (completedExercises state') other
        = Set_has (completedExercises state) other).
Proof.
  unfold handleFinish.
  destruct (loggedSets state) as [|first rest] eqn:Hsets; simpl.
  - repeat split; auto.
    intros [H | H]; [congruence | exact H].
  - destruct (WorkoutReducer2Facts.Set_of_spec
                (completedExercises state ++ [decodedName])) as [_ Hin].
    repeat split; auto.
    + intros _. left. discriminate.
    + intros _. apply WorkoutReducer2Facts.Set_has_In. apply Hin.
      apply in_or_app. right. now left.
    + intros other Hother.
      destruct (Set_has (completedExercises state) other) eqn:E.
      * apply WorkoutReducer2Facts.Set_has_In. apply Hin. apply in_or_app.
        left. now apply WorkoutReducer2Facts.Set_has_In.
      * apply WorkoutReducer2Facts.Set_has_false. intros H.
        apply Hin in H. apply in_app_or in H.
        destruct H as [H | [H | []]].
        -- apply WorkoutReducer2Facts.Set_has_In in H. congruence.
        -- congruence.
Qed.

Section WithServiceClient.

Variable Number_toString : number -> string.
Variable encodeURIComponent : string -> Completion string.
Variable fetch : string -> Completion LDPSClient.Response.
Variable as_SessionReference : LDPSClient.Json -> SessionReference.
Variable baseUrl : string.


End WithServiceClient.


End ExerciseDetailPageFacts.

(* ================================================================== *)
(** ** The set form *)

Module SetLoggerFacts.
Import Js Types Clients SetLogger NumberFacts.
Local Open Scope js_scope.
Local Open Scope string_scope.


Section WithEnvironment.

Variable parseFloat : string -> number.
Variable parseInt10 : string -> number.
Variable onLogSet : number -> number -> option number -> Completion unit.
Variable message_of_other : string -> Completion (option string).


(** X11. The RPE check lets the values 0 and NaN through: when the weight
    and the reps pass their checks and the RPE field parses to 0 or to NaN
    (text that is no number), [onLogSet] is called with that RPE, although
    it lies outside 1 to 10. *)
Theorem handleSubmit_passes_falsy_rpe (state : FormState) :
  validation_error (parseFloat (weight state)) (parseInt10 (reps state)) None
  = None ->
  truthy_string (rpe state) = true ->
  truthy_number (parseInt10 (rpe state)) = false ->
  called_with
    (handleSubmit parseFloat parseInt10 onLogSet message_of_other state)
  = Some (parseFloat (weight state), parseInt10 (reps state),
          Some (parseInt10 (rpe state))).
Proof.
  intros Hvalid Hgiven Hfalsy. unfold handleSubmit. rewrite Hgiven.
  assert (Hsame :
    validation_error (parseFloat (weight state)) (parseInt10 (reps state))
      (Some (parseInt10 (rpe state))) = None).
  { unfold validation_error in *.
    destruct (is_nan (parseFloat (weight state)) || is_nan (parseInt10 (reps state)));
      [discriminate|].
    destruct (Js.le (parseFloat (weight state)) 0%float
              || Js.le (parseInt10 (reps state)) 0%float); [discriminate|].
    now rewrite Hfalsy. }
  rewrite Hsame.
  destruct (onLogSet _ _ _) as [[]|err]; [reflexivity|].
  destruct (caught_message message_of_other err); reflexivity.
Qed.

End WithEnvironment.

(** X11 at the form 60 kg, 10 reps, RPE 0. *)
Lemma handleSubmit_passes_rpe_0 :
  called_with
    (handleSubmit sample_parse sample_parse accepting no_message
       {| weight := "60"; reps := "10"; rpe := "0";
          isLogging := false; error := None |})
  = Some (60%float, 10%float, Some 0%float).
Proof.
  apply (handleSubmit_passes_falsy_rpe sample_parse sample_parse accepting
           no_message
           {| weight := "60"; reps := "10"; rpe := "0";
              isLogging := false; error := None |});
    reflexivity.
Defined.

End SetLoggerFacts.

(* ================================================================== *)
(** ** The other client methods *)

Module ClientsFacts.
Import Js Types LDPSClient Clients.
Local Open Scope js_scope.
Local Open Scope string_scope.

Section WithEnvironment.

Variable Number_toString : number -> string.
Variable encodeURIComponent : string -> Completion string.
Variable JSON_stringify : LogEntryCreate.t -> string.
Variable fetch : string -> option RequestInit -> Completion Response.

(** [ToString] of an array of objects: "[object Object]" once per element,
    joined with commas, unless an element has an own [toString] member,
    which makes the conversion throw. *)
Lemma ToString_objects (items : list Json) :
  forallb is_object items = true ->
  ToString Number_toString (JArray items)
  = if existsb shadows_toString items
    then Throw (new_TypeError "Cannot convert object to primitive value")
    else Normal (String.concat ","
                   (map (fun _ => "[object Object]") items)).
Proof.
  intros Hall. cbn [ToString].
  assert (Hparts :
    in_order (fun item => match item with
                          | JNull => Normal ""
                          | _ => ToString Number_toString item
                          end) items
    = if existsb shadows_toString items
      then Throw (new_TypeError "Cannot convert object to primitive value")
      else Normal (map (fun _ => "[object Object]") items)).
  { induction items as [|item items IH]; [reflexivity|].
    cbn [forallb] in Hall. apply andb_prop in Hall.
    destruct Hall as [Hitem Hall].
    rewrite LDPSClientFacts.in_order_cons, (IH Hall).
    destruct item as [ | | | | |members]; try discriminate.
    cbn [ToString existsb shadows_toString map].
    destruct (get_member "toString" members); [reflexivity|].
    cbn [Js.bind orb]. destruct (existsb shadows_toString items); reflexivity. }
  rewrite Hparts. destruct (existsb shadows_toString items); reflexivity.
Qed.

(** X12. [logSet] throws an [Error] for every response that is not OK, 404
    included. Its message is the [detail] of the body when that is a
    string; "[object Object]" once per element, joined with commas, when
    [detail] is an array of objects, as in the validation errors of the
    service, none of which has an own member named [toString]; and
    "Failed to log set: " followed by the status text when the body cannot
    be read. When an object of the array has an own [toString] member, the
    [Error] is the TypeError of the conversion, "Cannot convert object to
    primitive value". *)
Theorem logSet_rejection_message (baseUrl : string)
    (logEntry : LogEntryCreate.t) (response : Response) :
  fetch (baseUrl ++ "/api/v1/logs")
    (Some {| method := "POST";
             headers := [("Content-Type", "application/json")];
             body := Some (JSON_stringify logEntry) |})
  = Normal response ->
  ok response = false ->
  let outcome :=
    logSet Number_toString JSON_stringify fetch baseUrl logEntry in
  (exists name message, outcome = Throw (ErrorInstance name message))
  /\ (forall members text,
        json response = Normal (JObject members) ->
        get_member "detail" members = Some (JString text) ->
        outcome = Throw (new_Error text))
  /\ (forall members items,
        json response = Normal (JObject members) ->
        get_member "detail" members = Some (JArray items) ->
        forallb is_object items = true ->
        outcome
        = Throw (if existsb shadows_toString items
                 then new_TypeError "Cannot convert object to primitive value"
                 else new_Error
                        (String.concat ","
                           (map (fun _ => "[object Object]") items))))
  /\ (forall reason,
        json response = Throw reason ->
        outcome
        = Throw (new_Error ("Failed to log set: " ++ statusText response))).
Proof.
  intros Hfetch Hok outcome. subst outcome.
  unfold logSet, logSet_try. rewrite Hfetch. cbn [Js.bind]. rewrite Hok.
  cbn [negb]. split; [|split; [|split]].
  - destruct (json response) as [body|reason]; cbn [Js.bind].
    + destruct (get_property body "detail") as [detail|err] eqn:Hdetail;
        cbn [Js.bind try_catch].
      * destruct (LDPSClientFacts.throw_new_Error_of Number_toString detail)
          as (name & message & H).
        rewrite H. simpl. now exists name, message.
      * destruct body; try discriminate. injection Hdetail as <-.
        do 2 eexists; reflexivity.
    + do 2 eexists; reflexivity.
  - intros members text -> Hdetail. simpl. now rewrite Hdetail.
  - intros members items -> Hdetail Hobjects. cbn [Js.bind get_property].
    rewrite Hdetail. cbn [new_Error_of].
    rewrite (ToString_objects items Hobjects).
    destruct (existsb shadows_toString items); reflexivity.
  - intros reason ->. reflexivity.
Qed.

(** X13. Whatever [getHistory] throws is an [Error]: the URL, the request
    and the reading of the body all happen inside its [try] block, and the
    [catch] block wraps every other value. *)
Theorem getHistory_throws_only_errors (baseUrl userId : string)
    (exerciseName : option string) (limit : option number) (reason : Thrown) :
  getHistory Number_toString encodeURIComponent fetch
    baseUrl userId exerciseName limit = Throw reason ->
  instanceof_Error reason = true.
Proof.
  unfold getHistory, try_catch.
  match goal with
  | |- match ?body with _ => _ end = _ -> _ => destruct body as [value|err]
  end.
  - discriminate.
  - destruct err; simpl; intros [= <-]; reflexivity.
Qed.


(** X15. [healthCheck], the same method in both clients, never throws: it
    returns true exactly when the request is answered with an OK status,
    and false for any other answer and for a request that fails. *)
Theorem healthCheck_never_throws (baseUrl : string) :
  exists healthy : bool,
    healthCheck fetch baseUrl = Normal healthy
    /\ (healthy = true <->
        exists response,
          fetch (baseUrl ++ "/") None = Normal response
          /\ ok response = true).
Proof.
  unfold healthCheck.
  destruct (fetch (baseUrl ++ "/") None) as [response|reason] eqn:Hfetch.
  - exists (ok response). split; [reflexivity|]. split.
    + intros Hok. now exists response.
    + intros (r & [= <-] & Hok). exact Hok.
  - exists false. split; [reflexivity|]. split; [discriminate|].
    intros (r & Habs & _). discriminate.
Qed.

(** X16. [getDailyWorkout] by the answer of the service: [null] for status
    404, whatever the body; for any other status that is not OK an [Error]
    whose message is the [detail] string of the body, or "P-MIS error: "
    followed by the status text when the body cannot be read; for an OK
    status what reading the body gives. *)
Theorem getDailyWorkout_by_status (baseUrl userId day encodedDay : string)
    (response : Response) :
  encodeURIComponent day = Normal encodedDay ->
  fetch (baseUrl ++ "/api/v1/plans/" ++ userId ++ "/" ++ encodedDay)
    (Some GET) = Normal response ->
  let outcome :=
    getDailyWorkout Number_toString encodeURIComponent fetch
      baseUrl userId day in
  ((response_status response === 404%float) = true -> outcome = Normal JNull)
  /\ ((response_status response === 404%float) = false ->
      ok response = false ->
      (forall members text,
         json response = Normal (JObject members) ->
         get_member "detail" members = Some (JString text) ->
         outcome = Throw (new_Error text))
      /\ (forall reason,
            json response = Throw reason ->
            outcome
            = Throw (new_Error ("P-MIS error: " ++ statusText response))))
  /\ (ok response = true -> outcome = json response).
Proof.
  intros Hday Hfetch outcome. subst outcome.
  unfold getDailyWorkout, getDailyWorkout_try. rewrite Hday. cbn [Js.bind].
  rewrite Hfetch. cbn [Js.bind]. split; [|split].
  - intros ->. reflexivity.
  - intros -> ->. cbn [negb]. split.
    + intros members text -> Hdetail. simpl. now rewrite Hdetail.
    + intros reason ->. reflexivity.
  - intros Hok. rewrite (LDPSClientFacts.ok_not_404 _ Hok), Hok. simpl.
    destruct (json response); reflexivity.
Qed.

(** X17. [getFullPlan] treats an answer as [getDailyWorkout] does: when the
    two requests get the same response, the two methods end the same way. *)
Theorem getFullPlan_as_getDailyWorkout (baseUrl userId day encodedDay : string)
    (response : Response) :
  encodeURIComponent day = Normal encodedDay ->
  fetch (baseUrl ++ "/api/v1/plans/" ++ userId ++ "/" ++ encodedDay)
    (Some GET) = Normal response ->
  fetch (baseUrl ++ "/api/v1/plans/" ++ userId) (Some GET) = Normal response ->
  getFullPlan Number_toString fetch baseUrl userId
  = getDailyWorkout Number_toString encodeURIComponent fetch
      baseUrl userId day.
Proof.
  intros Hday Hdaily Hplan.
  unfold getFullPlan, getFullPlan_try, getDailyWorkout, getDailyWorkout_try.
  rewrite Hday. cbn [Js.bind]. rewrite Hdaily, Hplan. cbn [Js.bind].
  destruct (response_status response === 404%float); [reflexivity|].
  destruct (ok response); cbn [negb]; [reflexivity|].
  destruct (json response) as [body|reason]; cbn [Js.bind].
  - destruct (get_property body "detail") as [detail|err] eqn:Hdetail;
      cbn [Js.bind try_catch].
    + destruct (LDPSClientFacts.throw_new_Error_of Number_toString detail)
        as (name & message & H).
      rewrite !H. reflexivity.
    + destruct body; try discriminate. injection Hdetail as <-. reflexivity.
  - reflexivity.
Qed.

(** X23. A rejection of [logSet] with a value that is no [Error] can only
    come from reading the body of an OK response, which the method returns
    without awaiting it: a failed request and every response that is not
    OK end in an [Error]. *)
Theorem logSet_non_error_rejection (baseUrl : string)
    (logEntry : LogEntryCreate.t) (reason : Thrown) :
  logSet Number_toString JSON_stringify fetch baseUrl logEntry
  = Throw reason ->
  instanceof_Error reason = false ->
  exists response,
    fetch (baseUrl ++ "/api/v1/logs")
      (Some {| method := "POST";
               headers := [("Content-Type", "application/json")];
               body := Some (JSON_stringify logEntry) |})
    = Normal response
    /\ ok response = true
    /\ json response = Throw reason.
Proof.
  unfold logSet, logSet_try.
  destruct (fetch _ _) as [response|err]; cbn [Js.bind try_catch].
  - destruct (ok response) eqn:Hok; cbn [negb Js.bind try_catch].
    + intros Hjson _. now exists response.
    + destruct (json response) as [body|unreadable]; cbn [Js.bind].
      * destruct (get_property body "detail") as [detail|err] eqn:Hdetail;
          cbn [Js.bind try_catch].
        -- destruct (LDPSClientFacts.throw_new_Error_of Number_toString
                       detail) as (name & message & H).
           rewrite H. simpl. intros [= <-]; discriminate.
        -- destruct body; try discriminate. injection Hdetail as <-.
           simpl. intros [= <-]; discriminate.
      * simpl. intros [= <-]; discriminate.
  - destruct err; simpl; intros [= <-]; discriminate.
Qed.

End WithEnvironment.

(** X12 at the response of the service to a set that fails validation. *)
Lemma logSet_validation_failure_message :
  logSet LDPSClient.two_as_text as_text
    (fun _ _ => Normal validation_failure_response)
    "http://localhost:8001" sample_entry
  = Throw (new_Error "[object Object]").
Proof.
  destruct (logSet_rejection_message LDPSClient.two_as_text as_text
              (fun _ _ => Normal validation_failure_response)
              "http://localhost:8001" sample_entry
              validation_failure_response eq_refl eq_refl)
    as (_ & _ & Hitems & _).
  exact (Hitems _ _ eq_refl eq_refl eq_refl).
Defined.

(** X13 at a network that is down. *)
Lemma getHistory_offline_is_wrapped :
  getHistory LDPSClient.two_as_text LDPSClient.unescaped offline
    "http://localhost:8001" "user_123" (Some "Squat") None
  = Throw (new_Error "Failed to fetch exercise history")
  /\ instanceof_Error (new_Error "Failed to fetch exercise history") = true.
Proof.
  assert (H : getHistory LDPSClient.two_as_text LDPSClient.unescaped offline
                "http://localhost:8001" "user_123" (Some "Squat") None
              = Throw (new_Error "Failed to fetch exercise history"))
    by reflexivity.
  split; [exact H|].
  exact (getHistory_throws_only_errors LDPSClient.two_as_text
           LDPSClient.unescaped offline "http://localhost:8001" "user_123"
           (Some "Squat") None _ H).
Defined.


(** X16 at a service that fails with status 500. *)
Lemma getDailyWorkout_500_message :
  getDailyWorkout LDPSClient.two_as_text LDPSClient.unescaped
    (fun _ _ => Normal server_error_response)
    "http://localhost:8000" "user_123" "Monday"
  = Throw (new_Error "Database is locked").
Proof.
  destruct (getDailyWorkout_by_status LDPSClient.two_as_text
              LDPSClient.unescaped
              (fun _ _ => Normal server_error_response)
              "http://localhost:8000" "user_123" "Monday" "Monday"
              server_error_response eq_refl eq_refl)
    as (_ & Hfailure & _).
  destruct (Hfailure eq_refl eq_refl) as (Hdetail & _).
  exact (Hdetail _ _ eq_refl eq_refl).
Defined.

(** X17 at a service that fails with status 500. *)
Lemma getFullPlan_500_as_getDailyWorkout :
  getFullPlan LDPSClient.two_as_text
    (fun _ _ => Normal server_error_response)
    "http://localhost:8000" "user_123"
  = getDailyWorkout LDPSClient.two_as_text LDPSClient.unescaped
      (fun _ _ => Normal server_error_response)
      "http://localhost:8000" "user_123" "Monday".
Proof.
  exact (getFullPlan_as_getDailyWorkout LDPSClient.two_as_text
           LDPSClient.unescaped
           (fun _ _ => Normal server_error_response)
           "http://localhost:8000" "user_123" "Monday" "Monday"
           server_error_response eq_refl eq_refl eq_refl).
Defined.

(** X23 at an OK response whose reading is interrupted. *)
Lemma logSet_interrupted_reading :
  exists response,
    Normal interrupted_ok_response = Normal response
    /\ ok response = true
    /\ json response = Throw (NonError "interrupted").
Proof.
  exact (logSet_non_error_rejection LDPSClient.two_as_text as_text
           (fun _ _ => Normal interrupted_ok_response)
           "http://localhost:8001" sample_entry (NonError "interrupted")
           eq_refl eq_refl).
Defined.

End ClientsFacts.

(* ================================================================== *)
(** ** What [getLatestSession] rejects with *)

Module LatestSessionFacts.
Import Js Types LDPSClient.
Local Open Scope js_scope.
Local Open Scope string_scope.

Section WithEnvironment.

Variable Number_toString : number -> string.
Variable encodeURIComponent : string -> Completion string.
Variable fetch : string -> Completion Response.

(** X24. A rejection of [getLatestSession] with a value that is no [Error]
    can only come from reading the body of an OK response, which the method
    returns without awaiting it: a name that cannot be encoded, a failed
    request and every response that is not OK end in an [Error]. *)
Theorem getLatestSession_non_error_rejection
    (baseUrl userId exerciseName : string)
    (sessionThresholdHours : option number) (reason : Thrown) :
  getLatestSession Number_toString encodeURIComponent fetch
    baseUrl userId exerciseName sessionThresholdHours = Throw reason ->
  instanceof_Error reason = false ->
  exists encodedName response,
    encodeURIComponent exerciseName = Normal encodedName
    /\ fetch (request_url Number_toString baseUrl userId encodedName
                sessionThresholdHours)
       = Normal response
    /\ ok response = true
    /\ json response = Throw reason.
Proof.
  unfold getLatestSession, getLatestSession_try, request_url.
  destruct (encodeURIComponent exerciseName) as [encodedName|err];
    cbn [Js.bind try_catch].
  - destruct (fetch _) as [response|err] eqn:Hfetch; cbn [Js.bind try_catch].
    + destruct (response_status response === 404%float);
        cbn [Js.bind try_catch]; [discriminate|].
      destruct (ok response) eqn:Hok; cbn [negb Js.bind try_catch].
      * intros Hjson _. exists encodedName, response.
        exact (conj eq_refl (conj Hfetch (conj Hok Hjson))).
      * destruct (json response) as [body|unreadable]; cbn [Js.bind].
        -- destruct (get_property body "detail") as [detail|err'] eqn:Hdetail;
             cbn [Js.bind try_catch].
           ++ destruct (LDPSClientFacts.throw_new_Error_of Number_toString
                          detail) as (name & message & H).
              rewrite H. simpl. intros [= <-]; discriminate.
           ++ destruct body; try discriminate. injection Hdetail as <-.
              simpl. intros [= <-]; discriminate.
        -- simpl. intros [= <-]; discriminate.
    + destruct err; simpl; intros [= <-]; discriminate.
  - destruct err; simpl; intros [= <-]; discriminate.
Qed.

End WithEnvironment.

(** X24 at an OK response whose reading is interrupted. *)
Lemma getLatestSession_interrupted_reading :
  exists encodedName response,
    unescaped "Squat" = Normal encodedName
    /\ Normal
         {| response_status := 200%float;
            statusText := "OK";
            json := Throw (NonError "interrupted") |}
       = Normal response
    /\ ok response = true
    /\ json response = Throw (NonError "interrupted").
Proof.
  exact (getLatestSession_non_error_rejection two_as_text unescaped
           (fun _ =>
              Normal {| response_status := 200%float;
                        statusText := "OK";
                        json := Throw (NonError "interrupted") |})
           "http://localhost:8001" "user_123" "Squat" None
           (NonError "interrupted") eq_refl eq_refl).
Defined.

End LatestSessionFacts.

(* ================================================================== *)
(** ** More on the progression advice *)

Module ProgressionFacts.
Import Js Types ProgressiveOverload NumberFacts.
Local Open Scope float_scope.
Local Open Scope js_scope.

Lemma gt_irrefl (a : number) : (a >? a) = false.
Proof.
  destruct (a >? a) eqn:E; [|reflexivity].
  now rewrite (gt_asym _ _ E) in E.
Qed.


Lemma ge_gt_trans (a b c : number) :
  (a >=? b) = true -> (b >? c) = true -> (a >? c) = true.
Proof.
  rewrite ge_below, !gt_below. intros H1 H2.
  exact (below_trans true false _ _ _ H2 H1).
Qed.

Lemma ge_cases (a b : number) :
  (a >=? b) = true -> (a >? b) = true \/ (a === b) = true.
Proof.
  rewrite ge_below, gt_below, strict_eq_sym. unfold strict_eq.
  rewrite eqb_spec. unfold below, SFeqb.
  destruct (SFcompare (Prim2SF b) (Prim2SF a)) as [[ | | ]|]; simpl; auto;
    discriminate.
Qed.

Lemma gt_strict_eq_l (a b c : number) :
  (a >? b) = true -> (b === c) = true -> (a >? c) = true.
Proof.
  rewrite !gt_below. unfold strict_eq. rewrite eqb_spec. intros H E.
  apply SFeqb_below in E. destruct E as [_ E].
  exact (below_trans false true _ _ _ E H).
Qed.

Lemma SFeqb_trans (a b c : spec_float) :
  SFeqb a b = true -> SFeqb b c = true -> SFeqb a c = true.
Proof.
  unfold SFeqb. by_cases3 a b c.
Qed.

Lemma strict_eq_trans (a b c : number) :
  (a === b) = true -> (b === c) = true -> (a === c) = true.
Proof.
  unfold strict_eq. rewrite !eqb_spec. apply SFeqb_trans.
Qed.

(** *** NaN and the infinities in the specification of the floats *)














(** X18. A set that beats the previous session still beats it when its
    weight and its reps are both raised or kept: with
    [isBeatPreviousSession w r reference] true, [w' >= w] and [r' >= r],
    [isBeatPreviousSession w' r' reference] is true. *)
Theorem isBeatPreviousSession_monotone
    (currentWeight currentReps moreWeight moreReps : number)
    (reference : SessionReference) :
  isBeatPreviousSession currentWeight currentReps reference = Normal true ->
  (moreWeight >=? currentWeight) = true ->
  (moreReps >=? currentReps) = true ->
  isBeatPreviousSession moreWeight moreReps reference = Normal true.
Proof.
  unfold isBeatPreviousSession.
  destruct (reduce (sets reference) _) as [best|thrown]; simpl;
    [|discriminate].
  intros H Hw Hr. injection H as H. f_equal.
  apply orb_true_iff in H. apply orb_true_iff.
  destruct H as [H|H].
  - left. exact (ge_gt_trans _ _ _ Hw H).
  - apply andb_true_iff in H. destruct H as [He Hg].
    destruct (ge_cases _ _ Hw) as [Hgt|Heq].
    + left. exact (gt_strict_eq_l _ _ _ Hgt He).
    + right. apply andb_true_iff. split.
      * exact (strict_eq_trans _ _ _ Heq He).
      * exact (ge_gt_trans _ _ _ Hr Hg).
Qed.

Lemma isBeatPreviousSession_monotone_leg_press :
  isBeatPreviousSession 105 9 leg_press_session = Normal true
  /\ isBeatPreviousSession 110 9 leg_press_session = Normal true.
Proof.
  assert (H : isBeatPreviousSession 105 9 leg_press_session = Normal true)
    by reflexivity.
  split; [exact H|].
  apply (isBeatPreviousSession_monotone 105 9 110 9 leg_press_session H);
    reflexivity.
Defined.

(** X19. Repeating the heaviest set of the previous session does not beat
    it: for the set [best] that [findBestSet] returns,
    [isBeatPreviousSession (weight_used best) (reps_completed best)] is
    false. *)
Theorem heaviest_set_does_not_beat_itself (reference : SessionReference)
    (best : SetData) :
  findBestSet reference = Normal best ->
  isBeatPreviousSession (weight_used best) (reps_completed best) reference
  = Normal false.
Proof.
  intros H.
  rewrite (ProgressiveOverloadFacts.isBeatPreviousSession_of_best _ _ _ _ H).
  now rewrite !gt_irrefl, andb_false_r.
Qed.

Lemma heaviest_set_of_leg_press_does_not_beat_itself :
  findBestSet leg_press_session = Normal (sample_set 2 105 8)
  /\ isBeatPreviousSession 105 8 leg_press_session = Normal false.
Proof.
  assert (H : findBestSet leg_press_session = Normal (sample_set 2 105 8))
    by reflexivity.
  split; [exact H|].
  exact (heaviest_set_does_not_beat_itself leg_press_session _ H).
Defined.

(** X20. [calculateProgression] never returns the strategy ['both'] that
    its result type declares: the strategy is ['reps'] exactly when the
    reps of the heaviest set are below 12, and ['weight'] otherwise, which
    includes a reps count that is NaN. *)
Theorem strategy_is_reps_or_weight (Number_toString : number -> string)
    (reference : SessionReference) (p : Progression) :
  calculateProgression Number_toString reference = Normal p ->
  strategy p <> both
  /\ (strategy p = reps <-> (lastReps p <? 12) = true)
  /\ (strategy p = weight <-> (lastReps p <? 12) = false).
Proof.
  unfold calculateProgression.
  destruct (reduce (sets reference) _) as [best|thrown]; simpl;
    [|discriminate].
  destruct (reps_completed best <? 12) eqn:E; intros H; injection H as <-;
    simpl; rewrite E; repeat split; congruence.
Qed.

Lemma strategy_for_leg_press :
  exists p,
    calculateProgression unrendered leg_press_session = Normal p
    /\ strategy p <> both
    /\ (strategy p = reps <-> (lastReps p <? 12) = true)
    /\ (strategy p = weight <-> (lastReps p <? 12) = false).
Proof.
  eexists. split; [reflexivity|].
  apply (strategy_is_reps_or_weight unrendered leg_press_session).
  reflexivity.
Defined.





End ProgressionFacts.

(* ================================================================== *)
(** ** The page, the form and the client together *)

Module PageFlowFacts.
Import Js Types LDPSClient Clients WorkoutReducer2 ExerciseDetailPage.
Local Open Scope js_scope.
Local Open Scope string_scope.
Local Open Scope list_scope.

(** X25. Rendering the page evaluates [calculateProgression] on the
    reference in the state: the evaluation throws exactly when the state
    holds a reference session with no sets, and gives no progression
    exactly when the state holds no reference. *)
Theorem progression_throws_iff_reference_is_empty
    (Number_toString : number -> string) (state : WorkoutState) :
  ((exists reason, progression Number_toString state = Throw reason)
   <-> exists reference,
         referenceData state = Some reference /\ sets reference = [])
  /\ (progression Number_toString state = Normal None
      <-> referenceData state = None).
Proof.
  unfold progression, ProgressiveOverload.calculateProgression.
  destruct (referenceData state) as [reference|].
  - destruct (sets reference) as [|first rest] eqn:Hsets; simpl.
    + split; split.
      * intros _. now exists reference.
      * intros _. eexists. reflexivity.
      * discriminate.
      * discriminate.
    + destruct (PrimFloat.ltb _ _); simpl; split; split;
        try discriminate.
      * intros [reason H]. discriminate.
      * intros (r & [= <-] & H). congruence.
      * intros [reason H]. discriminate.
      * intros (r & [= <-] & H). congruence.
  - split; split; try reflexivity.
    + intros [reason H]. discriminate.
    + intros (r & H & _). discriminate.
Qed.

Section WithEnvironment.

Variable Number_toString : number -> string.
Variable JSON_stringify : LogEntryCreate.t -> string.
Variable fetch : string -> option RequestInit -> Completion Response.
Variable as_LogEntryResponse : Json -> LogEntryResponse.
Variable parseFloat : string -> number.
Variable parseInt10 : string -> number.
Variable message_of_other : string -> Completion (option string).
Variable baseUrl : string.

(** X26. A set that the service refuses is shown and not logged. When the
    form passes its checks and the service answers the request with a
    status that is not OK and a [detail] text, [handleLogSet] dispatches
    nothing and rejects with an [Error] of that text, and the form keeps
    the entered values, shows the text as its error and stops logging. *)
Theorem refused_set_is_shown_and_not_logged (state : WorkoutState)
    (decodedName : string) (entered : SetLogger.FormState)
    (response : Response) (members : list (string * Json)) (text : string) :
  let weightNum := parseFloat (SetLogger.weight entered) in
  let repsNum := parseInt10 (SetLogger.reps entered) in
  let rpeNum :=
    if truthy_string (SetLogger.rpe entered)
    then Some (parseInt10 (SetLogger.rpe entered)) else None in
  let client logEntry :=
    typed_logSet as_LogEntryResponse
      (logSet Number_toString JSON_stringify fetch baseUrl logEntry) in
  SetLogger.validation_error weightNum repsNum rpeNum = None ->
  fetch (baseUrl ++ "/api/v1/logs")
    (Some {| method := "POST";
             headers := [("Content-Type", "application/json")];
             body :=
               Some (JSON_stringify
                       {| LogEntryCreate.user_id := userId state;
                          LogEntryCreate.exercise_name := decodedName;
                          LogEntryCreate.set_number :=
                            (ProgressiveOverload.whole
                               (List.length (loggedSets state)) + 1)%float;
                          LogEntryCreate.weight_used := weightNum;
                          LogEntryCreate.reps_completed := repsNum;
                          LogEntryCreate.duration := None;
                          LogEntryCreate.distance := None;
                          LogEntryCreate.rpe := rpeNum |}) |})
  = Normal response ->
  ok response = false ->
  json response = Normal (JObject members) ->
  get_member "detail" members = Some (JString text) ->
  let submission :=
    SetLogger.handleSubmit parseFloat parseInt10
      (fun weight reps rpe =>
         onLogSet_of (handleLogSet client state decodedName weight reps rpe))
      message_of_other entered in
  handleLogSet client state decodedName weightNum repsNum rpeNum
  = Throw (new_Error text)
  /\ SetLogger.form submission
     = {| SetLogger.weight := SetLogger.weight entered;
          SetLogger.reps := SetLogger.reps entered;
          SetLogger.rpe := SetLogger.rpe entered;
          SetLogger.isLogging := false;
          SetLogger.error := Some text |}
  /\ SetLogger.rejection submission = None.
Proof.
  intros weightNum repsNum rpeNum client Hvalid Hfetch Hok Hbody Hdetail
    submission.
  assert (Hthrown :
    handleLogSet client state decodedName weightNum repsNum rpeNum
    = Throw (new_Error text)).
  { unfold handleLogSet, client, logSet, logSet_try.
    rewrite Hfetch. cbn [Js.bind]. rewrite Hok. cbn [negb]. rewrite Hbody.
    cbn [Js.bind get_property]. rewrite Hdetail. reflexivity. }
  split; [exact Hthrown|].
  subst submission. unfold SetLogger.handleSubmit.
  fold weightNum repsNum rpeNum. rewrite Hvalid, Hthrown.
  split; reflexivity.
Qed.

(** X27. A set that the service accepts is logged with the next number.
    When the form passes its checks and the service answers the request,
    which carries as [set_number] the number of sets logged so far plus
    one, with an OK status and a body, [handleLogSet] dispatches one
    [LOG_SET_SUCCESS] with that body, the state holds it as the last of
    the logged sets, and the form is cleared. *)
Theorem accepted_set_is_logged_with_next_number (state : WorkoutState)
    (decodedName : string) (entered : SetLogger.FormState)
    (response : Response) (body : Json) :
  let weightNum := parseFloat (SetLogger.weight entered) in
  let repsNum := parseInt10 (SetLogger.reps entered) in
  let rpeNum :=
    if truthy_string (SetLogger.rpe entered)
    then Some (parseInt10 (SetLogger.rpe entered)) else None in
  let client logEntry :=
    typed_logSet as_LogEntryResponse
      (logSet Number_toString JSON_stringify fetch baseUrl logEntry) in
  SetLogger.validation_error weightNum repsNum rpeNum = None ->
  fetch (baseUrl ++ "/api/v1/logs")
    (Some {| method := "POST";
             headers := [("Content-Type", "application/json")];
             body :=
               Some (JSON_stringify
                       {| LogEntryCreate.user_id := userId state;
                          LogEntryCreate.exercise_name := decodedName;
                          LogEntryCreate.set_number :=
                            (ProgressiveOverload.whole
                               (List.length (loggedSets state)) + 1)%float;
                          LogEntryCreate.weight_used := weightNum;
                          LogEntryCreate.reps_completed := repsNum;
                          LogEntryCreate.duration := None;
                          LogEntryCreate.distance := None;
                          LogEntryCreate.rpe := rpeNum |}) |})
  = Normal response ->
  ok response = true ->
  json response = Normal body ->
  let submission :=
    SetLogger.handleSubmit parseFloat parseInt10
      (fun weight reps rpe =>
         onLogSet_of (handleLogSet client state decodedName weight reps rpe))
      message_of_other entered in
  exists actions,
    handleLogSet client state decodedName weightNum repsNum rpeNum
    = Normal actions
    /\ actions = [LOG_SET_SUCCESS (as_LogEntryResponse body)]
    /\ loggedSets (dispatch_all state actions)
       = loggedSets state ++ [as_LogEntryResponse body]
    /\ completedExercises (dispatch_all state actions)
       = completedExercises state
    /\ SetLogger.form submission
       = {| SetLogger.weight := "";
            SetLogger.reps := "";
            SetLogger.rpe := "";
            SetLogger.isLogging := false;
            SetLogger.error := None |}.
Proof.
  intros weightNum repsNum rpeNum client Hvalid Hfetch Hok Hbody submission.
  assert (Hlogged :
    handleLogSet client state decodedName weightNum repsNum rpeNum
    = Normal [LOG_SET_SUCCESS (as_LogEntryResponse body)]).
  { unfold handleLogSet, client, logSet, logSet_try.
    rewrite Hfetch. cbn [Js.bind]. rewrite Hok. cbn [negb]. rewrite Hbody.
    reflexivity. }
  eexists. split; [exact Hlogged|]. split; [reflexivity|].
  split; [reflexivity|]. split; [reflexivity|].
  subst submission. unfold SetLogger.handleSubmit.
  fold weightNum repsNum rpeNum. rewrite Hvalid, Hlogged. reflexivity.
Qed.

End WithEnvironment.

(** X26 at the set form 60 kg, 10 reps and a service that is failing. *)
Lemma refused_squat_set_is_shown :
  SetLogger.form
    (SetLogger.handleSubmit SetLogger.sample_parse SetLogger.sample_parse
       (fun weight reps rpe =>
          onLogSet_of
            (handleLogSet
               (fun logEntry =>
                  typed_logSet (fun _ => sample_log_entry)
                    (logSet two_as_text as_text
                       (fun _ _ => Normal server_error_response)
                       "http://localhost:8001" logEntry))
               (createInitialState InitialState.day_1 None)
               "Squat" weight reps rpe))
       SetLogger.no_message
       {| SetLogger.weight := "60"; SetLogger.reps := "10";
          SetLogger.rpe := ""; SetLogger.isLogging := false;
          SetLogger.error := None |})
  = {| SetLogger.weight := "60"; SetLogger.reps := "10";
       SetLogger.rpe := ""; SetLogger.isLogging := false;
       SetLogger.error := Some "Database is locked" |}.
Proof.
  destruct (refused_set_is_shown_and_not_logged two_as_text as_text
              (fun _ _ => Normal server_error_response)
              (fun _ => sample_log_entry)
              SetLogger.sample_parse SetLogger.sample_parse
              SetLogger.no_message "http://localhost:8001"
              (createInitialState InitialState.day_1 None) "Squat"
              {| SetLogger.weight := "60"; SetLogger.reps := "10";
                 SetLogger.rpe := ""; SetLogger.isLogging := false;
                 SetLogger.error := None |}
              server_error_response _ "Database is locked"
              eq_refl eq_refl eq_refl eq_refl eq_refl)
    as (_ & Hform & _).
  exact Hform.
Defined.

(** X27 at the set form 60 kg, 10 reps and a service that accepts the
    set. *)
Lemma accepted_squat_set_is_logged :
  exists actions,
    handleLogSet
      (fun logEntry =>
         typed_logSet (fun _ => sample_log_entry)
           (logSet two_as_text as_text
              (fun _ _ => Normal created_response)
              "http://localhost:8001" logEntry))
      (createInitialState InitialState.day_1 None) "Squat"
      60%float 10%float None
    = Normal actions
    /\ loggedSets
         (dispatch_all (createInitialState InitialState.day_1 None) actions)
       = [sample_log_entry].
Proof.
  destruct (accepted_set_is_logged_with_next_number two_as_text as_text
              (fun _ _ => Normal created_response)
              (fun _ => sample_log_entry)
              SetLogger.sample_parse SetLogger.sample_parse
              SetLogger.no_message "http://localhost:8001"
              (createInitialState InitialState.day_1 None) "Squat"
              {| SetLogger.weight := "60"; SetLogger.reps := "10";
                 SetLogger.rpe := ""; SetLogger.isLogging := false;
                 SetLogger.error := None |}
              created_response _
              eq_refl eq_refl eq_refl eq_refl)
    as (actions & Hactions & _ & Hsets & _).
  exists actions. split; [exact Hactions | exact Hsets].
Defined.

End PageFlowFacts.
